(** * validate-form-ts: a shallow embedding of [src/validation.ts]

    The library builds per-field validation descriptors with a fluent,
    self-mutating builder and runs a schema of descriptors against a data
    object.  The descriptors are JavaScript objects that are mutated in
    place and may share sub-objects, so the embedding keeps an explicit
    store of objects and threads it through a small state-and-exception
    monad.  JavaScript values, strings, [Map]s and the [Date] built-ins
    the source calls are modelled first. *)

From Stdlib Require Import ZArith String Ascii List Bool Lia PrimFloat.
From stdpp Require Import base option list strings gmap.

#[local] Set Warnings "-register-all".

Local Open Scope string_scope.
Local Open Scope Z_scope.

(** ** Strings

    Strings are sequences of ASCII characters.  The three string built-ins
    the source uses are [String.prototype.replaceAll] (with one-character
    pattern and replacement, as in [replaceAll("_", " ")]),
    [String.prototype.trim] and lodash's [capitalize].  Case conversion and
    white space are those of the ASCII range. *)

Module JsString.

Definition isWhiteSpace (c : ascii) : bool :=
  let n := nat_of_ascii c in
  ((9 <=? n)%nat && (n <=? 13)%nat) || (n =? 32)%nat.

Definition toLowerChar (c : ascii) : ascii :=
  let n := nat_of_ascii c in
  if ((65 <=? n)%nat && (n <=? 90)%nat) then ascii_of_nat (n + 32) else c.

Definition toUpperChar (c : ascii) : ascii :=
  let n := nat_of_ascii c in
  if ((97 <=? n)%nat && (n <=? 122)%nat) then ascii_of_nat (n - 32) else c.

Fixpoint map (f : ascii -> ascii) (s : string) : string :=
  match s with
  | EmptyString => EmptyString
  | String c rest => String (f c) (map f rest)
  end.

Definition toLowerCase : string -> string := map toLowerChar.

(** [s.replaceAll(pat, rep)] for one-character [pat] and [rep]. *)
Definition replaceAll (s : string) (pat rep : ascii) : string :=
  map (fun c => if Ascii.eqb c pat then rep else c) s.

Definition upperFirst (s : string) : string :=
  match s with
  | EmptyString => EmptyString
  | String c rest => String (toUpperChar c) rest
  end.

(** lodash: [capitalize(s) = upperFirst(toString(s).toLowerCase())]. *)
Definition capitalize (s : string) : string := upperFirst (toLowerCase s).

Fixpoint trimStart (s : string) : string :=
  match s with
  | EmptyString => EmptyString
  | String c rest => if isWhiteSpace c then trimStart rest else s
  end.

(** Drops the trailing white space: a character is kept when it is not
    white space or when something is kept after it. *)
Fixpoint trimEnd (s : string) : string :=
  match s with
  | EmptyString => EmptyString
  | String c rest =>
      match trimEnd rest with
      | EmptyString => if isWhiteSpace c then EmptyString else String c EmptyString
      | kept => String c kept
      end
  end.

Definition trim (s : string) : string := trimEnd (trimStart s).

Fixpoint all (p : ascii -> bool) (s : string) : bool :=
  match s with
  | EmptyString => true
  | String c rest => p c && all p rest
  end.

Definition isEmpty (s : string) : bool :=
  match s with EmptyString => true | _ => false end.

End JsString.

(** ** JavaScript values

    The values a field of a data object can hold.  A primitive string and a
    [String] wrapper object are different values: only the second is an
    [instanceof String].  Numbers are IEEE doubles. *)

Inductive JsValue : Type :=
| VUndefined
| VNull
| VBoolean (b : bool)
| VNumber (n : float)
| VString (s : string)
| VStringObject (s : string)
| VArray (elems : list JsValue)
| VSet (elems : list JsValue)
| VDate (t : option Z)
| VObject (props : list (string * JsValue)).

(** [ToBoolean]: what [!value] and [if (value)] test. *)
Definition truthy (v : JsValue) : bool :=
  match v with
  | VUndefined | VNull => false
  | VBoolean b => b
  | VNumber n => negb (PrimFloat.eqb n 0%float || PrimFloat.is_nan n)
  | VString s => negb (JsString.isEmpty s)
  | VStringObject _ | VArray _ | VSet _ | VDate _ | VObject _ => true
  end.

(** An optional string parameter [msg?: string] is [undefined] or a string;
    [if (msg)] holds for a non-empty string only. *)
Definition truthyMsg (msg : option string) : bool :=
  match msg with
  | Some s => negb (JsString.isEmpty s)
  | None => false
  end.

(** ** Exceptions and completions *)

Inductive Exn : Type :=
| AssertionError (message : string)
| TypeError (message : string)
| DanglingReference.

Inductive Completion (A : Type) : Type :=
| Normal (a : A)
| Throw (e : Exn).

Arguments Normal {A} a.
Arguments Throw {A} e.

(** Insertion-ordered association lists model both plain objects (as
    [Object.keys] lists them) and [Map]s. *)
Fixpoint assoc_get {V : Type} (k : string) (m : list (string * V)) : option V :=
  match m with
  | [] => None
  | (k', v) :: rest => if String.eqb k k' then Some v else assoc_get k rest
  end.

(** [Map.prototype.set]: an existing key keeps its place, a new key goes last. *)
Fixpoint assoc_set {V : Type} (k : string) (v : V) (m : list (string * V)) : list (string * V) :=
  match m with
  | [] => [(k, v)]
  | (k', v') :: rest =>
      if String.eqb k k' then (k, v) :: rest else (k', v') :: assoc_set k v rest
  end.

(** [data[key]]: reading a property of [undefined] or [null] throws; an
    object yields the property or [undefined].  Only the own data
    properties of plain objects are modelled; every other value answers
    [undefined]. *)
Definition getProp (data : JsValue) (key : string) : Completion JsValue :=
  match data with
  | VUndefined => Throw (TypeError "Cannot read properties of undefined")
  | VNull => Throw (TypeError "Cannot read properties of null")
  | VObject props =>
      match assoc_get key props with
      | Some v => Normal v
      | None => Normal VUndefined
      end
  | _ => Normal VUndefined
  end.

(** ** The [Date] built-ins

    Time values are milliseconds since the epoch; [None] is the time value
    [NaN] of an invalid date.  The definitions follow the abstract
    operations of the language standard (Day, YearFromTime, MonthFromTime,
    DateFromTime, WeekDay, MakeDay, MakeDate, TimeClip, LocalTime, UTC). *)

Module JsDate.

Definition msPerDay : Z := 86400000.

Definition Day (t : Z) : Z := t / msPerDay.

Definition DayFromYear (y : Z) : Z :=
  365 * (y - 1970) + (y - 1969) / 4 - (y - 1901) / 100 + (y - 1601) / 400.

Definition DaysInYear (y : Z) : Z := DayFromYear (y + 1) - DayFromYear y.

(** The year [y] with [DayFromYear y <= day < DayFromYear (y + 1)]: an
    estimate from the mean year length, moved by at most one year. *)
Definition YearFromDay (day : Z) : Z :=
  let y := 1970 + (day * 400) / 146097 in
  if day <? DayFromYear y then y - 1
  else if DayFromYear (y + 1) <=? day then y + 1
  else y.

Definition YearFromTime (t : Z) : Z := YearFromDay (Day t).

Definition InLeapYear (t : Z) : Z :=
  if DaysInYear (YearFromTime t) =? 366 then 1 else 0.

Definition DayWithinYear (t : Z) : Z := Day t - DayFromYear (YearFromTime t).

(** The number of days of a year before its month [m] (0 = January),
    [leap] being 1 in a leap year and 0 otherwise. *)
Definition daysBeforeMonth (leap m : Z) : Z :=
  match m with
  | 0 => 0
  | 1 => 31
  | 2 => 59 + leap
  | 3 => 90 + leap
  | 4 => 120 + leap
  | 5 => 151 + leap
  | 6 => 181 + leap
  | 7 => 212 + leap
  | 8 => 243 + leap
  | 9 => 273 + leap
  | 10 => 304 + leap
  | _ => 334 + leap
  end.

Definition MonthFromTime (t : Z) : Z :=
  let d := DayWithinYear t in
  let leap := InLeapYear t in
  if d <? 31 then 0
  else if d <? 59 + leap then 1
  else if d <? 90 + leap then 2
  else if d <? 120 + leap then 3
  else if d <? 151 + leap then 4
  else if d <? 181 + leap then 5
  else if d <? 212 + leap then 6
  else if d <? 243 + leap then 7
  else if d <? 273 + leap then 8
  else if d <? 304 + leap then 9
  else if d <? 334 + leap then 10
  else 11.

Definition DateFromTime (t : Z) : Z :=
  DayWithinYear t - daysBeforeMonth (InLeapYear t) (MonthFromTime t) + 1.

Definition WeekDay (t : Z) : Z := (Day t + 4) mod 7.

(** [MakeDay(year, month, date)]: the day number of the first of the
    month, plus [date - 1]; months outside 0..11 carry into the year. *)
Definition MakeDay (year month date : Z) : Z :=
  let ym := year + month / 12 in
  let mn := month mod 12 in
  let leap := if DaysInYear ym =? 366 then 1 else 0 in
  DayFromYear ym + daysBeforeMonth leap mn + date - 1.

Definition MakeDate (day time : Z) : Z := day * msPerDay + time.

Definition TimeClip (t : Z) : option Z :=
  if Z.abs t <=? 8640000000000000 then Some t else None.

(** [time1 < time2] on time values: false as soon as one is [NaN]. *)
Definition lt (a b : option Z) : bool :=
  match a, b with
  | Some x, Some y => x <? y
  | _, _ => false
  end.

End JsDate.

(** ** The host

    What the library reads from its environment: the clock behind
    [Date.now()], the local time zone adjustment [LocalTZA(t, isUTC)] of
    the language standard, and the time value of [new Date(v)] for a value
    [v] that is not a [Date] (parsing and number conversion are left to
    the host). *)

Record Host : Type := {
  Date_now : Z;
  LocalTZA : Z -> bool -> Z;
  Date_of : JsValue -> option Z
}.

Section WithHost.

Variable host : Host.

Definition LocalTime (t : Z) : Z := t + LocalTZA host t true.

Definition UTC (t : Z) : Z := t - LocalTZA host t false.

Definition getFullYear (t : Z) : Z := JsDate.YearFromTime (LocalTime t).
Definition getMonth (t : Z) : Z := JsDate.MonthFromTime (LocalTime t).
Definition getDate (t : Z) : Z := JsDate.DateFromTime (LocalTime t).
Definition getDay (t : Z) : Z := JsDate.WeekDay (LocalTime t).

(** [new Date(year, month, date).getTime()]: a year in 0..99 means
    1900 + year; the fields are read as local time. *)
Definition newDateYMD (year month date : Z) : option Z :=
  let yr := if (0 <=? year) && (year <=? 99) then 1900 + year else year in
  JsDate.TimeClip (UTC (JsDate.MakeDate (JsDate.MakeDay yr month date) 0)).

(** [new Date(value).getTime()]. *)
Definition newDateOf (value : JsValue) : option Z :=
  match value with
  | VDate t => t
  | _ => Date_of host value
  end.

(** Source, lines 137-140:
    [const now = new Date(Date.now());
     return new Date(now.getFullYear(), now.getMonth(), now.getDay()).getTime();]
    The third argument is [getDay()], the day of the week. *)
Definition timeOfThisDay : option Z :=
  match JsDate.TimeClip (Date_now host) with
  | Some now => newDateYMD (getFullYear now) (getMonth now) (getDay now)
  | None => None
  end.

(** Local midnight of the current calendar day: the local time of the
    clock with its time within the day zeroed. *)
Definition startOfToday : Z :=
  UTC (JsDate.Day (LocalTime (Date_now host)) * JsDate.msPerDay).

End WithHost.

(** ** The data model of the source (lines 15-61) *)

(** [const enum FieldType { String = 0, Array = 1, File = 2 }] *)
Inductive FieldType : Type :=
| FieldType_String
| FieldType_Array
| FieldType_File.

(** [interface Criteria { required: boolean; type: FieldType }] *)
Record Criteria : Type := {
  required : bool;
  type : FieldType
}.

(** Objects live in the store and are named by references. *)
Definition ref : Type := nat.

(** [type CustomValidator = (value: any) => string | null].  The library
    itself creates one kind of closure, in [onlyFuture]; it captures the
    descriptor [_this] and the parameter [msg].  Any other function is a
    caller's, taken to be pure. *)
Inductive CustomValidator : Type :=
| OnlyFutureValidator (_this : ref) (msg : option string)
| UserValidator (f : JsValue -> option string).

(** The values the property [_fieldName] can hold: it is declared a
    string, and the assertion of [validate] tests it against [null];
    [field()] called without an argument leaves it [undefined]. *)
Inductive FieldName : Type :=
| NameNull
| NameUndefined
| NameString (s : string).

#[global] Instance FieldName_eq_dec : EqDecision FieldName.
Proof. solve_decision. Defined.

(** [interface TypedValidationCriteriaBuilder].  [criteria]
    refers to a [Criteria] object of the store; the array [customCriteria]
    and the map [_messages] are created with the descriptor and owned by
    it.  The marker [__isValidator] is [true] on every descriptor. *)
Record TypedValidationCriteriaBuilder : Type := {
  _fieldName : FieldName;
  criteria : ref;
  customCriteria : list CustomValidator;
  _messages : gmap string string
}.

(** [type UntypedValidationCriteriaBuilder]: the name, and the four
    kind selectors defined below. *)
Record UntypedValidationCriteriaBuilder : Type := {
  untyped_fieldName : FieldName
}.

Record Store : Type := {
  criteriaObjects : list Criteria;
  builders : list TypedValidationCriteriaBuilder
}.

(** Source, lines 63-66: the one module-level object [DEFAULT_CRITERIA],
    allocated when the module is loaded. *)
Definition DEFAULT_CRITERIA : ref := 0%nat.

Definition initialStore : Store := {|
  criteriaObjects := [ {| required := false; type := FieldType_String |} ];
  builders := []
|}.

(** ** The state-and-exception monad *)

Definition M (A : Type) : Type := Store -> Completion A * Store.

#[global] Instance M_ret : MRet M := fun A a st => (Normal a, st).

#[global] Instance M_bind : MBind M := fun A B f m st =>
  match m st with
  | (Normal a, st') => f a st'
  | (Throw e, st') => (Throw e, st')
  end.

Definition throw {A : Type} (e : Exn) : M A := fun st => (Throw e, st).

Definition readBuilder (r : ref) : M TypedValidationCriteriaBuilder := fun st =>
  match builders st !! r with
  | Some b => (Normal b, st)
  | None => (Throw DanglingReference, st)
  end.

Definition writeBuilder (r : ref) (b : TypedValidationCriteriaBuilder) : M unit := fun st =>
  (Normal tt, {| criteriaObjects := criteriaObjects st; builders := <[r := b]> (builders st) |}).

Definition allocBuilder (b : TypedValidationCriteriaBuilder) : M ref := fun st =>
  (Normal (length (builders st)),
   {| criteriaObjects := criteriaObjects st; builders := (builders st ++ [b])%list |}).

Definition readCriteria (r : ref) : M Criteria := fun st =>
  match criteriaObjects st !! r with
  | Some c => (Normal c, st)
  | None => (Throw DanglingReference, st)
  end.

Definition writeCriteria (r : ref) (c : Criteria) : M unit := fun st =>
  (Normal tt, {| criteriaObjects := <[r := c]> (criteriaObjects st); builders := builders st |}).

Definition liftCompletion {A : Type} (c : Completion A) : M A := fun st => (c, st).

(** ** The helpers (source, lines 4-13 and 68-93) *)

(** [assert(condition, msg?)] throws an [AssertionError] carrying
    [msg ?? "Assertion failed"]. *)
Definition assert (condition : bool) (msg : option string) : M unit :=
  if negb condition
  then throw (AssertionError (default "Assertion failed" msg))
  else mret tt.

(** [String(field)] for a field name. *)
Definition String_of (field : FieldName) : string :=
  match field with
  | NameString s => s
  | NameNull => "null"
  | NameUndefined => "undefined"
  end.

Definition fieldReadable (field : FieldName) : string :=
  JsString.capitalize (JsString.replaceAll (String_of field) "_" " ").

(** The [default] branch also writes a diagnostic to the console, which is
    no part of the result. *)
Definition buildDefaultMessageForCriteria (criteria : string) (fieldName : FieldName) : string :=
  let fn := fieldReadable fieldName in
  if String.eqb criteria "required" then fn +:+ " is required" else "Unknown error".

Definition getMessageForCriteria
    (builder : TypedValidationCriteriaBuilder) (fieldName : FieldName)
    (criteria : string) : string :=
  let customMsg := _messages builder !! criteria in
  if negb (truthyMsg customMsg)
  then buildDefaultMessageForCriteria criteria fieldName
  else default "" customMsg.

(** ** The field builder (source, lines 95-178) *)

Section Builder.

Variable host : Host.

(** Calling one element of [customCriteria].  For the closure of
    [onlyFuture] (source, lines 145-155): a falsy value passes; otherwise
    the value's time is compared with [timeOfThisDay()], and the message
    is [msg] when it is truthy, else built from the descriptor's name as
    it is when the check runs. *)
Definition callCustomValidator (customChecker : CustomValidator) (value : JsValue)
    : M (option string) :=
  match customChecker with
  | UserValidator f => mret (f value)
  | OnlyFutureValidator _this msg =>
      if negb (truthy value) then mret None
      else
        let vt := newDateOf host value in
        let now := timeOfThisDay host in
        if JsDate.lt vt now then
          b ← readBuilder _this;
          mret (Some (if truthyMsg msg then default "" msg
                      else fieldReadable (_fieldName b) +:+ " can't be in the past"))
        else mret None
  end.

(** The [for ... of _this.customCriteria] loop of [validate]: [err] is
    the array the messages are pushed on. *)
Fixpoint runCustomCriteria (cs : list CustomValidator) (value : JsValue)
    (err : list string) : M (list string) :=
  match cs with
  | [] => mret err
  | customChecker :: rest =>
      e ← callCustomValidator customChecker value;
      match e with
      | None => runCustomCriteria rest value err
      | Some e => runCustomCriteria rest value (err ++ [e])%list
      end
  end.

(** The closure [f] of the required check (source, lines 105-108). *)
Definition requiredFailure (_this : TypedValidationCriteriaBuilder)
    (err : list string) : M (list string) :=
  assert (bool_decide (_fieldName _this ≠ NameNull)) (Some "Field name not specified");;
  mret (err ++ [getMessageForCriteria _this (_fieldName _this) "required"])%list.

(** The method [validate] of a typed descriptor (source, lines 102-125). *)
Definition typedField_validate (this : ref) (value : JsValue) : M (list string) :=
  _this ← readBuilder this;
  c ← readCriteria (criteria _this);
  let err : list string := [] in
  err ←
    (if required c then
       let f := requiredFailure _this err in
       if match value with VUndefined => true | _ => false end then f
       else if match value with
               | VStringObject s => (String.length (JsString.trim s) =? 0)%nat
               | _ => false
               end then f
       else if match value with
               | VArray elems => (length elems =? 0)%nat
               | _ => false
               end then f
       else if match value with
               | VSet elems => (length elems =? 0)%nat
               | _ => false
               end then f
       else mret err
     else mret err);
  runCustomCriteria (customCriteria _this) value err.

(** The method [required] (source, lines 126-132): it writes through
    [_this.criteria], and records the message when it is truthy. *)
Definition typedField_required (this : ref) (msg : option string) : M ref :=
  _this ← readBuilder this;
  c ← readCriteria (criteria _this);
  writeCriteria (criteria _this) {| required := true; type := type c |};;
  (if truthyMsg msg then
     writeBuilder this {|
       _fieldName := _fieldName _this;
       criteria := criteria _this;
       customCriteria := customCriteria _this;
       _messages := <["required" := default "" msg]> (_messages _this)
     |}
   else mret tt);;
  mret this.

(** [typedField] (source, lines 95-135): a new descriptor object with the
    name of the untyped builder, [criteria: DEFAULT_CRITERIA], a new
    empty array and a new empty map. *)
Definition typedField (field : UntypedValidationCriteriaBuilder) : M ref :=
  allocBuilder {|
    _fieldName := untyped_fieldName field;
    criteria := DEFAULT_CRITERIA;
    customCriteria := [];
    _messages := ∅
  |}.

(** The method [onlyFuture] that [dateField] adds (source, lines 144-157). *)
Definition dateField_onlyFuture (this : ref) (msg : option string) : M ref :=
  _this ← readBuilder this;
  writeBuilder this {|
    _fieldName := _fieldName _this;
    criteria := criteria _this;
    customCriteria := (customCriteria _this ++ [OnlyFutureValidator this msg])%list;
    _messages := _messages _this
  |};;
  mret this.

Definition dateField (field : UntypedValidationCriteriaBuilder) : M ref :=
  typedField field.

(** [field(fieldName)] and its four kind selectors (source, lines 161-178). *)
Definition field (fieldName : string) : UntypedValidationCriteriaBuilder :=
  {| untyped_fieldName := NameString fieldName |}.

Definition field_string (_this : UntypedValidationCriteriaBuilder) : M ref := typedField _this.
Definition field_array (_this : UntypedValidationCriteriaBuilder) : M ref := typedField _this.
Definition field_file (_this : UntypedValidationCriteriaBuilder) : M ref := typedField _this.
Definition field_date (_this : UntypedValidationCriteriaBuilder) : M ref := dateField _this.

End Builder.

(** ** The schema validator (source, lines 15-20 and 180-203) *)

(** [type ValidationSchema<T>]: an object whose keys, in [Object.keys]
    order, map to a descriptor or to a nested schema (the source reads
    every entry with a non-null assertion, [schema[_fieldName]!]). *)
Inductive ValidationSchema : Type :=
| SchemaNil
| SchemaCons (fieldName : string) (field : SchemaField) (rest : ValidationSchema)
with SchemaField : Type :=
| Builder (r : ref)
| SubSchema (schema : ValidationSchema).

Scheme ValidationSchema_mut := Induction for ValidationSchema Sort Prop
  with SchemaField_mut := Induction for SchemaField Sort Prop.

(** [type VEErrorContainer<T> = Array<string> | Map<keyof T, VEErrorContainer<T>>] *)
Inductive VEErrorContainer : Type :=
| ErrorList (messages : list string)
| ErrorMap (entries : list (string * VEErrorContainer)).

Definition VErrors : Type := list (string * VEErrorContainer).

Fixpoint hasKey (key : string) (schema : ValidationSchema) : bool :=
  match schema with
  | SchemaNil => false
  | SchemaCons fieldName _ rest => String.eqb key fieldName || hasKey key rest
  end.

(** [field && field.__isValidator !== undefined]: a descriptor carries the
    marker; a plain schema object has it only as a key of its own. *)
Definition isFinalValidatorField (field : SchemaField) : bool :=
  match field with
  | Builder _ => true
  | SubSchema schema => hasKey "__isValidator" schema
  end.

Section Validator.

Variable host : Host.

(** The loop of [validate] over the keys of [schema], [validationErrors]
    being the map built so far.  A schema object that passes
    [isFinalValidatorField] has no function [validate] to call. *)
Fixpoint validateFrom (schema : ValidationSchema) (data : JsValue)
    (validationErrors : VErrors) {struct schema} : M VErrors :=
  match schema with
  | SchemaNil => mret validationErrors
  | SchemaCons fieldName field rest =>
      value ← liftCompletion (getProp data fieldName);
      if isFinalValidatorField field then
        e ← match field with
            | Builder r => typedField_validate host r value
            | SubSchema _ => throw (TypeError "field.validate is not a function")
            end;
        validateFrom rest data
          (if negb (length e =? 0)%nat
           then assoc_set fieldName (ErrorList e) validationErrors
           else validationErrors)
      else
        res ← match field with
              | SubSchema sub => validateFrom sub value []
              | Builder _ => mret []
              end;
        validateFrom rest data
          (if negb (length res =? 0)%nat
           then assoc_set fieldName (ErrorMap res) validationErrors
           else validationErrors)
  end.

Definition validate (schema : ValidationSchema) (data : JsValue) : M VErrors :=
  validateFrom schema data [].

End Validator.

(** ** Programs over the builder

    The stores a caller can reach: the store of the freshly loaded module,
    changed by any sequence of calls of the builder's interface.  A call
    that throws leaves the store as it was when it threw, and the caller
    may go on.  [onlyFuture] is taken on any descriptor, not only on those
    of [date()], so the set of stores is if anything too large. *)

Inductive FieldKind : Type := KindString | KindArray | KindFile | KindDate.

Inductive BuilderCall : Type :=
| CallField (kind : FieldKind) (fieldName : string)
| CallRequired (this : ref) (msg : option string)
| CallOnlyFuture (this : ref) (msg : option string).

Definition runCall (call : BuilderCall) : M ref :=
  match call with
  | CallField KindString fieldName => field_string (field fieldName)
  | CallField KindArray fieldName => field_array (field fieldName)
  | CallField KindFile fieldName => field_file (field fieldName)
  | CallField KindDate fieldName => field_date (field fieldName)
  | CallRequired this msg => typedField_required this msg
  | CallOnlyFuture this msg => dateField_onlyFuture this msg
  end.

Definition runCalls (calls : list BuilderCall) (st : Store) : Store :=
  fold_left (fun st call => snd (runCall call st)) calls st.

Definition reachable (st : Store) : Prop :=
  exists calls, st = runCalls calls initialStore.

(** The value and the store a computation is left with. *)
Definition result {A : Type} (m : M A) (st : Store) : Completion A := fst (m st).
Definition final {A : Type} (m : M A) (st : Store) : Store := snd (m st).

(** The value for which the required check of [validate] calls [f]. *)
Definition requiredFires (value : JsValue) : bool :=
  match value with
  | VUndefined => true
  | VStringObject s => (String.length (JsString.trim s) =? 0)%nat
  | VArray elems => (length elems =? 0)%nat
  | VSet elems => (length elems =? 0)%nat
  | _ => false
  end.

(** What one custom criterion answers for a value, in a store. *)
Definition checkerAnswer (host : Host) (st : Store) (value : JsValue)
    (customChecker : CustomValidator) : option string :=
  match result (callCustomValidator host customChecker value) st with
  | Normal e => e
  | Throw _ => None
  end.

(** A closure of [onlyFuture] refers to a descriptor of the store. *)
Definition checkerBound (st : Store) (customChecker : CustomValidator) : Prop :=
  match customChecker with
  | OnlyFutureValidator _this _ => is_Some (builders st !! _this)
  | UserValidator _ => True
  end.

(** The messages of the required check: none or one. *)
Definition requiredMessages (b : TypedValidationCriteriaBuilder) (c : Criteria)
    (value : JsValue) : list string :=
  if required c && requiredFires value
  then [getMessageForCriteria b (_fieldName b) "required"]
  else [].

(** The [Criteria] object a descriptor of the store refers to. *)
Definition criteriaOf (st : Store) (this : ref) : option Criteria :=
  match builders st !! this with
  | Some b => criteriaObjects st !! criteria b
  | None => None
  end.

(** ** The invariant of the stores the builder reaches

    There is one [Criteria] object, [DEFAULT_CRITERIA]; every descriptor
    refers to it, has a name, and its [onlyFuture] closures refer to
    descriptors of the store. *)

Definition checkerIn (n : nat) (customChecker : CustomValidator) : Prop :=
  match customChecker with
  | OnlyFutureValidator _this _ => (_this < n)%nat
  | UserValidator _ => True
  end.

Definition builderOk (n : nat) (b : TypedValidationCriteriaBuilder) : Prop :=
  criteria b = DEFAULT_CRITERIA /\
  (exists name, _fieldName b = NameString name) /\
  Forall (checkerIn n) (customCriteria b).

Definition wellFormed (st : Store) : Prop :=
  length (criteriaObjects st) = 1%nat /\
  Forall (builderOk (length (builders st))) (builders st).

(** ** Sparse maps of errors

    An error container is sparse when it is a non-empty sequence of
    messages, or a non-empty map whose containers are sparse. *)

Fixpoint sparse (e : VEErrorContainer) : Prop :=
  match e with
  | ErrorList messages => messages <> []
  | ErrorMap entries =>
      entries <> [] /\
      (fix each (m : list (string * VEErrorContainer)) : Prop :=
         match m with
         | [] => True
         | (_, e') :: rest => sparse e' /\ each rest
         end) entries
  end.

Definition sparseMap (m : VErrors) : Prop := Forall (fun kv => sparse (snd kv)) m.

(** ** Schemas and data that fit together

    A schema is bound in a store when its descriptors are descriptors of
    the store and no nested schema has a key ["__isValidator"].  A data
    value covers a schema when it is neither [undefined] nor [null]
    wherever the schema has a key to look up, at every level. *)





(** ** Characters of a readable name *)

Definition isUnderscore (c : ascii) : bool := Ascii.eqb c "_".

Definition isUpperCase (c : ascii) : bool :=
  let n := nat_of_ascii c in ((65 <=? n)%nat && (n <=? 90)%nat).

Definition tail (s : string) : string :=
  match s with
  | EmptyString => EmptyString
  | String _ rest => rest
  end.

(** ** Repeated calls of [required]

    The message that counts after [required(first)] and then
    [required(second)]: the second when it is a non-empty string, else the
    first. *)

Definition laterMessage (first second : option string) : option string :=
  if truthyMsg second then second else first.

(** The object [DEFAULT_CRITERIA] as the store has it. *)
Definition defaultCriteria (st : Store) : option Criteria :=
  criteriaObjects st !! DEFAULT_CRITERIA.

(** Two stores in which every reference names descriptors of one name, or
    no descriptor in either. *)
Definition sameNames (st st' : Store) : Prop :=
  forall r : ref, _fieldName <$> (builders st' !! r) = _fieldName <$> (builders st !! r).

(** ** What the schema validator computes

    The errors of one descriptor for a value, and the map of errors of a
    schema for a data value, written key by key: a key is listed when its
    descriptor reports messages, or its nested schema a non-empty map. *)






(** Two data values that hold the same value under every key of a schema. *)
Definition agreeOn (schema : ValidationSchema) (data data' : JsValue) : Prop :=
  forall key, hasKey key schema = true -> getProp data key = getProp data' key.

(** ** Where the model is exact

    Strings are modelled in the ASCII range, where white space and case
    are those of the language; a criterion created by the library is one
    of [onlyFuture]; [data[key]] is modelled for a plain object,
    [undefined] and [null], and for a key that is not a property of
    [Object.prototype]; [new Date(value)] is known not to throw for a
    primitive value and for a [Date]. *)

Definition asciiOnly (s : string) : bool :=
  JsString.all (fun c => (nat_of_ascii c <? 128)%nat) s.

Definition asciiValue (value : JsValue) : Prop :=
  match value with
  | VStringObject s => asciiOnly s = true
  | _ => True
  end.

Definition libraryCriterion (customChecker : CustomValidator) : Prop :=
  match customChecker with
  | OnlyFutureValidator _ _ => True
  | UserValidator _ => False
  end.

Definition objectPrototypeKeys : list string :=
  ["constructor"; "__proto__"; "hasOwnProperty"; "isPrototypeOf";
   "propertyIsEnumerable"; "toLocaleString"; "toString"; "valueOf";
   "__defineGetter__"; "__defineSetter__"; "__lookupGetter__"; "__lookupSetter__"].

Definition ownKey (key : string) : bool :=
  negb (existsb (String.eqb key) objectPrototypeKeys).

Definition plainData (data : JsValue) : Prop :=
  match data with
  | VObject _ | VUndefined | VNull => True
  | _ => False
  end.




Definition topKeysOwn (schema : ValidationSchema) : Prop :=
  forall key, hasKey key schema = true -> ownKey key = true.

(** ** Concrete hosts, stores and schemas for the examples *)

(** A host in the UTC time zone whose clock reads [now]. *)
Definition utcHost (now : Z) : Host := {|
  Date_now := now;
  LocalTZA := fun _ _ => 0;
  Date_of := fun _ => None
|}.

(** Milliseconds since the epoch of noon, UTC, on a day of 2026. *)
Definition noon_2026_08_01 : Z := 1785585600000.  (* a Saturday *)
Definition noon_2026_08_03 : Z := 1785758400000.
Definition noon_2026_11_03 : Z := 1793707200000.
Definition noon_2026_11_04 : Z := 1793793600000.  (* a Wednesday *)
Definition noon_2026_11_05 : Z := 1793880000000.
Definition noon_2026_11_07 : Z := 1794052800000.  (* a Saturday *)

(** The schema [{name: ..., address: {city: ...}}] of two descriptors. *)
Definition nameAddressSchema (name city : ref) : ValidationSchema :=
  SchemaCons "name" (Builder name)
    (SchemaCons "address" (SubSchema (SchemaCons "city" (Builder city) SchemaNil))
       SchemaNil).

(** [field("first_name").string().required("Please fill this in")] *)
Definition store6 : Store :=
  runCalls [CallField KindString "first_name";
            CallRequired 0%nat (Some "Please fill this in")] initialStore.

Definition builder6 : TypedValidationCriteriaBuilder := {|
  _fieldName := NameString "first_name";
  criteria := DEFAULT_CRITERIA;
  customCriteria := [];
  _messages := <["required" := "Please fill this in"]> ∅
|}.

(** A required descriptor on which the caller has pushed three criteria
    of their own around one of [onlyFuture]. *)
Definition builder8 : TypedValidationCriteriaBuilder := {|
  _fieldName := NameString "tags";
  criteria := DEFAULT_CRITERIA;
  customCriteria :=
    [UserValidator (fun _ => Some "first");
     UserValidator (fun _ => None);
     OnlyFutureValidator 0%nat None;
     UserValidator (fun _ => Some "last")];
  _messages := ∅
|}.

Definition store8 : Store := {|
  criteriaObjects := [ {| required := true; type := FieldType_String |} ];
  builders := [builder8]
|}.

(** [{due: field("due").date().onlyFuture()}] and [{due: <2026-11-05, noon>}] *)
Definition store9 : Store :=
  runCalls [CallField KindDate "due"; CallOnlyFuture 0%nat None] initialStore.

Definition schema9 : ValidationSchema := SchemaCons "due" (Builder 0%nat) SchemaNil.

Definition data9 : JsValue := VObject [("due", VDate (Some noon_2026_11_05))].

(** A required descriptor whose name has been set to [null]. *)
Definition builder10 : TypedValidationCriteriaBuilder := {|
  _fieldName := NameNull;
  criteria := DEFAULT_CRITERIA;
  customCriteria := [];
  _messages := ∅
|}.

Definition store10 : Store := {|
  criteriaObjects := [ {| required := true; type := FieldType_String |} ];
  builders := [builder10]
|}.

(** Two descriptors, [a] of [string()] and [b] of [date()], none required. *)
Definition storeAB : Store :=
  runCalls [CallField KindString "a"; CallField KindDate "b"] initialStore.

(** Two descriptors, [name] and [city], with [required()] called on the
    first. *)
Definition storeNameCity : Store :=
  runCalls [CallField KindString "name"; CallRequired 0%nat None;
            CallField KindString "city"] initialStore.

Definition dataAnn : JsValue :=
  VObject [("name", VString "Ann"); ("address", VObject [])].

(** A required descriptor whose name is [undefined]. *)
Definition storeUndefinedName : Store := {|
  criteriaObjects := [ {| required := true; type := FieldType_String |} ];
  builders := [ {| _fieldName := NameUndefined; criteria := DEFAULT_CRITERIA;
                   customCriteria := []; _messages := ∅ |} ]
|}.

(** * Properties *)

Ltac unfold_monad :=
  unfold result, final, mbind, mret, M_bind, M_ret, throw, liftCompletion,
    readBuilder, readCriteria, writeBuilder, writeCriteria, allocBuilder, assert in *.

(** Induction over a schema, key by key: a key is bound to a descriptor
    or to a nested schema, for which the property holds as well. *)
Lemma ValidationSchema_by_key (P : ValidationSchema -> Prop) :
  P SchemaNil ->
  (forall fieldName r rest, P rest -> P (SchemaCons fieldName (Builder r) rest)) ->
  (forall fieldName sub rest,
     P sub -> P rest -> P (SchemaCons fieldName (SubSchema sub) rest)) ->
  forall schema, P schema.
Proof.
  intros Hnil Hbuilder Hsub.
  apply (ValidationSchema_mut P
           (fun fld => forall fieldName rest, P rest -> P (SchemaCons fieldName fld rest)));
    auto.
Qed.

(** ** Strings and the calendar *)

(** Three readable names. *)
Example fieldReadable_examples :
  fieldReadable (NameString "first_name") = "First name" /\
  fieldReadable (NameString "id") = "Id" /\
  fieldReadable (NameString "DATE_of_Birth") = "Date of birth".
Proof. repeat split; reflexivity. Qed.

Lemma trimEnd_empty s :
  JsString.trimEnd s = "" <-> JsString.all JsString.isWhiteSpace s = true.
Proof.
  induction s as [| c rest IH]; simpl; [tauto |].
  destruct (JsString.trimEnd rest) as [| k kept] eqn:E.
  - destruct (JsString.isWhiteSpace c); simpl.
    + rewrite <- IH. tauto.
    + split; discriminate.
  - split; [discriminate |]. intros H. apply andb_true_iff in H as [_ H].
    apply IH in H. discriminate.
Qed.

Lemma trimStart_all s :
  JsString.all JsString.isWhiteSpace (JsString.trimStart s)
  = JsString.all JsString.isWhiteSpace s.
Proof.
  induction s as [| c rest IH]; simpl; [reflexivity |].
  destruct (JsString.isWhiteSpace c) eqn:E; simpl; [assumption |].
  rewrite E. reflexivity.
Qed.

(** [s.trim().length === 0] holds exactly when [s] is white space only. *)
Lemma trim_length_zero s :
  (String.length (JsString.trim s) =? 0)%nat = JsString.all JsString.isWhiteSpace s.
Proof.
  rewrite <- trimStart_all. unfold JsString.trim.
  destruct (JsString.all JsString.isWhiteSpace (JsString.trimStart s)) eqn:E.
  - apply trimEnd_empty in E. rewrite E. reflexivity.
  - destruct (JsString.trimEnd (JsString.trimStart s)) eqn:E'; [| reflexivity].
    apply trimEnd_empty in E'. congruence.
Qed.

(** [YearFromDay] computes the year the language standard defines: the
    one whose first day is not after [day] and whose successor's is. *)
Lemma YearFromDay_spec day :
  JsDate.DayFromYear (JsDate.YearFromDay day) <= day
  < JsDate.DayFromYear (JsDate.YearFromDay day + 1).
Proof.
  unfold JsDate.YearFromDay.
  destruct (Z.ltb_spec day (JsDate.DayFromYear (1970 + day * 400 / 146097)));
    [| destruct (Z.leb_spec (JsDate.DayFromYear (1970 + day * 400 / 146097 + 1)) day)];
    unfold JsDate.DayFromYear in *; Z.div_mod_to_equations; lia.
Qed.

(** Putting the year and the month of a time together with a day of the
    month [date] gives the day of that time, moved by the difference
    between [date] and the time's own day of the month. *)
Lemma MakeDay_of_time t date :
  JsDate.MakeDay (JsDate.YearFromTime t) (JsDate.MonthFromTime t) date
  = JsDate.Day t - JsDate.DateFromTime t + date.
Proof.
  unfold JsDate.MakeDay, JsDate.DateFromTime, JsDate.DayWithinYear, JsDate.InLeapYear.
  set (y := JsDate.YearFromTime t).
  assert (Hm : 0 <= JsDate.MonthFromTime t <= 11).
  { unfold JsDate.MonthFromTime.
    repeat match goal with |- context [if ?x then _ else _] => destruct x end; lia. }
  rewrite (Z.div_small _ 12) by lia. rewrite (Z.mod_small _ 12) by lia.
  rewrite Z.add_0_r. fold y. lia.
Qed.

(** ** Validation reads the store and leaves it as it is *)

Lemma callCustomValidator_final host customChecker value st :
  final (callCustomValidator host customChecker value) st = st.
Proof.
  destruct customChecker as [r msg | f]; unfold callCustomValidator; unfold_monad; simpl.
  - destruct (negb (truthy value)); [reflexivity |].
    destruct (JsDate.lt _ _); [| reflexivity].
    destruct (builders st !! r); reflexivity.
  - reflexivity.
Qed.

Lemma runCustomCriteria_final host cs value : forall err st,
  final (runCustomCriteria host cs value err) st = st.
Proof.
  induction cs as [| ck cs IH]; intros err st; simpl.
  - reflexivity.
  - generalize (callCustomValidator_final host ck value st).
    unfold final, mbind, M_bind.
    destruct (callCustomValidator host ck value st) as [[[e |] | ex] st']; simpl;
      intros ->; try reflexivity; apply IH.
Qed.

Lemma requiredFailure_final b err st :
  final (requiredFailure b err) st = st.
Proof.
  unfold requiredFailure; unfold_monad.
  destruct (negb (bool_decide (_fieldName b ≠ NameNull))); reflexivity.
Qed.

Lemma typedField_validate_final host this value st :
  final (typedField_validate host this value) st = st.
Proof.
  unfold typedField_validate, final, mbind, M_bind, readBuilder, readCriteria.
  destruct (builders st !! this) as [b |]; [| reflexivity].
  destruct (criteriaObjects st !! criteria b) as [c |]; [| reflexivity].
  set (f := requiredFailure b []).
  assert (Hf : snd (f st) = st) by apply requiredFailure_final.
  assert (Hr : forall err st, snd (runCustomCriteria host (customCriteria b) value err st) = st)
    by (intros; apply runCustomCriteria_final).
  assert (Hgo : forall m : M (list string), snd (m st) = st ->
            snd (match m st with
                 | (Normal a, st') => runCustomCriteria host (customCriteria b) value a st'
                 | (Throw e, st') => (Throw e, st')
                 end) = st).
  { intros m Hm. destruct (m st) as [[a | e] st']; simpl in *; subst; [apply Hr | reflexivity]. }
  destruct (required c); [| apply Hr].
  repeat match goal with
         | |- context [if ?x then _ else _] => destruct x
         end; first [apply Hgo, Hf | apply Hr].
Qed.

Lemma validateFrom_final host schema : forall data acc st,
  final (validateFrom host schema data acc) st = st.
Proof.
  induction schema as [| fieldName r rest IHrest | fieldName sub rest IHsub IHrest]
    using ValidationSchema_by_key; intros data acc st.
  - reflexivity.
  - cbn [validateFrom isFinalValidatorField].
    unfold final, mbind, M_bind, liftCompletion in *.
    destruct (getProp data fieldName) as [value | e]; [| reflexivity].
    generalize (typedField_validate_final host r value st). unfold final.
    destruct (typedField_validate host r value st) as [[e | ex] st']; simpl;
      intros ->; [apply IHrest | reflexivity].
  - cbn [validateFrom isFinalValidatorField].
    unfold final, mbind, M_bind, liftCompletion, throw in *.
    destruct (getProp data fieldName) as [value | e]; [| reflexivity].
    destruct (hasKey "__isValidator" sub); [reflexivity |].
    generalize (IHsub value [] st).
    destruct (validateFrom host sub value [] st) as [[res | ex] st']; simpl;
      intros ->; [apply IHrest | reflexivity].
Qed.

Lemma validate_final host schema data st :
  final (validate host schema data) st = st.
Proof. exact (validateFrom_final host schema data [] st). Qed.

(** ** The map of errors is sparse *)

Lemma sparse_ErrorMap entries :
  sparse (ErrorMap entries) <-> entries <> [] /\ sparseMap entries.
Proof.
  simpl. apply and_iff_compat_l. unfold sparseMap.
  induction entries as [| [k e] rest IH]; simpl.
  - split; [constructor | trivial].
  - rewrite Forall_cons. simpl. rewrite IH. reflexivity.
Qed.

Lemma assoc_set_sparse k e m :
  sparse e -> sparseMap m -> sparseMap (assoc_set k e m).
Proof.
  intros He. unfold sparseMap. induction 1 as [| [k' e'] rest Hk Hrest IH]; simpl.
  - repeat constructor. assumption.
  - destruct (String.eqb k k'); constructor; assumption.
Qed.

Lemma validateFrom_sparse host schema : forall data acc st res,
  sparseMap acc ->
  result (validateFrom host schema data acc) st = Normal res ->
  sparseMap res.
Proof.
  induction schema as [| fieldName r rest IHrest | fieldName sub rest IHsub IHrest]
    using ValidationSchema_by_key; intros data acc st res Hacc.
  - intros H. injection H as <-. assumption.
  - cbn [validateFrom isFinalValidatorField].
    unfold result, mbind, M_bind, liftCompletion in *.
    destruct (getProp data fieldName) as [value | e]; [| discriminate].
    destruct (typedField_validate host r value st) as [[e | ex] st']; [| discriminate].
    apply IHrest.
    destruct e as [| m ms]; simpl; [assumption |].
    apply assoc_set_sparse; [discriminate | assumption].
  - cbn [validateFrom isFinalValidatorField].
    unfold result, mbind, M_bind, liftCompletion, throw in *.
    destruct (getProp data fieldName) as [value | e]; [| discriminate].
    destruct (hasKey "__isValidator" sub); [discriminate |].
    destruct (validateFrom host sub value [] st) as [[res' | ex] st'] eqn:E;
      [| discriminate].
    apply IHrest.
    assert (Hres' : sparseMap res').
    { apply (IHsub value [] st); [constructor | rewrite E; reflexivity]. }
    destruct res' as [| kv kvs]; simpl; [assumption |].
    apply assoc_set_sparse; [| assumption].
    apply sparse_ErrorMap. split; [discriminate | assumption].
Qed.

(** Property X3.  Whenever [validate] returns a map, the map is sparse at
    every level: no key is bound to an empty sequence of messages or to
    an empty map. *)
Theorem validate_result_is_sparse host schema data st res :
  result (validate host schema data) st = Normal res -> sparseMap res.
Proof. apply (validateFrom_sparse host schema data [] st res). constructor. Qed.

Lemma validate_result_is_sparse_witness :
  sparseMap [("due", ErrorList ["Due can't be in the past"])].
Proof.
  apply (validate_result_is_sparse (utcHost noon_2026_11_07) schema9 data9 store9).
  vm_compute; reflexivity.
Defined.

(** ** The closed form of a descriptor's [validate] *)

Lemma callCustomValidator_bound host customChecker value st :
  checkerBound st customChecker ->
  callCustomValidator host customChecker value st
  = (Normal (checkerAnswer host st value customChecker), st).
Proof.
  intros Hb. unfold checkerAnswer, result.
  destruct customChecker as [r msg | f]; unfold callCustomValidator; unfold_monad; simpl.
  - destruct Hb as [b Hb]. simpl in Hb.
    destruct (negb (truthy value)); [reflexivity |].
    destruct (JsDate.lt _ _); [| reflexivity].
    rewrite Hb. reflexivity.
  - reflexivity.
Qed.

Lemma runCustomCriteria_bound host st value cs :
  Forall (checkerBound st) cs ->
  forall err,
    runCustomCriteria host cs value err st
    = (Normal (err ++ omap (checkerAnswer host st value) cs)%list, st).
Proof.
  induction 1 as [| ck cs Hck _ IH]; intros err; simpl.
  - rewrite app_nil_r. reflexivity.
  - unfold mbind, M_bind. rewrite (callCustomValidator_bound _ _ _ _ Hck).
    destruct (checkerAnswer host st value ck) as [e |].
    + rewrite IH, <- app_assoc. reflexivity.
    + apply IH.
Qed.

Lemma required_branch b c value st :
  (if required c then
     let f := requiredFailure b [] in
     if match value with VUndefined => true | _ => false end then f
     else if match value with
             | VStringObject s => (String.length (JsString.trim s) =? 0)%nat
             | _ => false
             end then f
     else if match value with
             | VArray elems => (length elems =? 0)%nat
             | _ => false
             end then f
     else if match value with
             | VSet elems => (length elems =? 0)%nat
             | _ => false
             end then f
     else mret []
   else mret []) st
  = (if required c && requiredFires value then requiredFailure b [] else mret []) st.
Proof.
  destruct (required c); [| reflexivity].
  destruct value; reflexivity.
Qed.

Lemma typedField_validate_unfold host this value st b c :
  builders st !! this = Some b ->
  criteriaObjects st !! criteria b = Some c ->
  typedField_validate host this value st
  = match (if required c && requiredFires value
           then requiredFailure b [] else mret []) st with
    | (Normal err, st') => runCustomCriteria host (customCriteria b) value err st'
    | (Throw e, st') => (Throw e, st')
    end.
Proof.
  intros Hb Hc.
  unfold typedField_validate, mbind, M_bind, readBuilder, readCriteria.
  rewrite Hb, Hc. rewrite required_branch. reflexivity.
Qed.

Lemma typedField_validate_named host this value st b c :
  builders st !! this = Some b ->
  criteriaObjects st !! criteria b = Some c ->
  _fieldName b <> NameNull ->
  Forall (checkerBound st) (customCriteria b) ->
  typedField_validate host this value st
  = (Normal (requiredMessages b c value
             ++ omap (checkerAnswer host st value) (customCriteria b))%list, st).
Proof.
  intros Hb Hc Hn Hw.
  rewrite (typedField_validate_unfold _ _ _ _ _ _ Hb Hc).
  unfold requiredMessages.
  destruct (required c && requiredFires value).
  - unfold requiredFailure; unfold_monad.
    rewrite bool_decide_eq_true_2 by assumption. simpl.
    apply runCustomCriteria_bound; assumption.
  - unfold_monad. apply runCustomCriteria_bound; assumption.
Qed.

(** With the name unset the required check aborts when it fires. *)
Lemma typedField_validate_unnamed host this value st b c :
  builders st !! this = Some b ->
  criteriaObjects st !! criteria b = Some c ->
  _fieldName b = NameNull ->
  required c = true ->
  requiredFires value = true ->
  typedField_validate host this value st
  = (Throw (AssertionError "Field name not specified"), st).
Proof.
  intros Hb Hc Hn Hr Hv.
  rewrite (typedField_validate_unfold _ _ _ _ _ _ Hb Hc).
  rewrite Hr, Hv. simpl. unfold requiredFailure; unfold_monad.
  rewrite Hn. reflexivity.
Qed.

(** The values for which the required check calls [f]: [undefined], a
    [String] object of white space only, the empty array and the empty
    set. *)
Lemma requiredFires_iff value :
  requiredFires value = true <->
  value = VUndefined \/
  (exists s, value = VStringObject s /\ JsString.all JsString.isWhiteSpace s = true) \/
  value = VArray [] \/
  value = VSet [].
Proof.
  split.
  - destruct value as [| | ? | ? | ? | s | elems | elems | ? | ?]; simpl;
      try discriminate; auto.
    + rewrite trim_length_zero. eauto.
    + destruct elems; [auto | discriminate].
    + destruct elems; [auto | discriminate].
  - intros [-> | [(s & -> & Hs) | [-> | ->]]]; simpl; try reflexivity.
    rewrite trim_length_zero. assumption.
Qed.

(** ** The stores the builder reaches are well formed *)

Lemma checkerIn_mono n m ck : (n <= m)%nat -> checkerIn n ck -> checkerIn m ck.
Proof. destruct ck; simpl; [lia | trivial]. Qed.

Lemma builderOk_mono n m b : (n <= m)%nat -> builderOk n b -> builderOk m b.
Proof.
  intros Hnm (Hc & Hn & Hcs). repeat split; try assumption.
  eapply Forall_impl; [exact Hcs |]. intros ck. apply checkerIn_mono, Hnm.
Qed.

Lemma checkerIn_bound st ck :
  checkerIn (length (builders st)) ck -> checkerBound st ck.
Proof. destruct ck; simpl; [apply lookup_lt_is_Some_2 | trivial]. Qed.

Lemma wellFormed_initial : wellFormed initialStore.
Proof. split; [reflexivity | constructor]. Qed.

Lemma wellFormed_typedField st fieldName :
  wellFormed st -> wellFormed (final (typedField (field fieldName)) st).
Proof.
  intros [Hc Hb]. unfold wellFormed, typedField, final, allocBuilder; simpl.
  split; [assumption |].
  rewrite length_app; simpl. apply Forall_app; split.
  - eapply Forall_impl; [exact Hb |]. intros b. apply builderOk_mono. lia.
  - constructor; [| constructor]. repeat split; [eauto | constructor].
Qed.

Lemma wellFormed_required st this msg :
  wellFormed st -> wellFormed (final (typedField_required this msg) st).
Proof.
  intros [Hc Hb]. unfold wellFormed, typedField_required; unfold_monad; simpl.
  destruct (builders st !! this) as [b |] eqn:Eb; [| split; assumption].
  destruct (criteriaObjects st !! criteria b) as [c |] eqn:Ec; [| split; assumption].
  simpl.
  assert (Hok : builderOk (length (builders st)) b).
  { eapply Forall_lookup_1; eassumption. }
  destruct (truthyMsg msg); simpl; (split; [rewrite length_insert; assumption |]).
  - rewrite length_insert. apply Forall_insert; [assumption |].
    destruct Hok as (? & ? & ?). repeat split; assumption.
  - assumption.
Qed.

Lemma wellFormed_onlyFuture st this msg :
  wellFormed st -> wellFormed (final (dateField_onlyFuture this msg) st).
Proof.
  intros [Hc Hb]. unfold wellFormed, dateField_onlyFuture; unfold_monad; simpl.
  destruct (builders st !! this) as [b |] eqn:Eb; [| split; assumption].
  simpl. split; [assumption |].
  rewrite length_insert. apply Forall_insert; [assumption |].
  destruct (Forall_lookup_1 _ _ _ _ Hb Eb) as (? & ? & ?).
  repeat split; try assumption. simpl.
  apply Forall_app; split; [assumption |].
  constructor; [| constructor]. simpl. eapply lookup_lt_Some; eassumption.
Qed.

Lemma wellFormed_runCall st call :
  wellFormed st -> wellFormed (final (runCall call) st).
Proof.
  destruct call as [[] fieldName | this msg | this msg]; simpl;
    auto using wellFormed_typedField, wellFormed_required, wellFormed_onlyFuture.
Qed.

Lemma wellFormed_runCalls calls : forall st,
  wellFormed st -> wellFormed (runCalls calls st).
Proof.
  induction calls as [| call calls IH]; intros st Hst; simpl; [assumption |].
  apply IH, (wellFormed_runCall st call Hst).
Qed.

Lemma reachable_wellFormed st : reachable st -> wellFormed st.
Proof. intros [calls ->]. apply wellFormed_runCalls, wellFormed_initial. Qed.

(** What the invariant gives for one descriptor. *)
Lemma wellFormed_lookup st this b :
  wellFormed st ->
  builders st !! this = Some b ->
  criteria b = DEFAULT_CRITERIA /\
  (exists name, _fieldName b = NameString name) /\
  Forall (checkerBound st) (customCriteria b) /\
  (exists c, criteriaObjects st !! DEFAULT_CRITERIA = Some c).
Proof.
  intros [Hc Hb] Eb.
  destruct (Forall_lookup_1 _ _ _ _ Hb Eb) as (Hcr & Hn & Hcs).
  repeat split.
  - assumption.
  - assumption.
  - eapply Forall_impl; [exact Hcs |]. intros ck. apply checkerIn_bound.
  - apply lookup_lt_is_Some_2. unfold DEFAULT_CRITERIA. lia.
Qed.

(** ** Validation and the host

    [validate] consults the host for the threshold [timeOfThisDay()] and
    for the conversion of non-[Date] values only. *)

Section TwoHosts.

Variables h1 h2 : Host.
Hypothesis same_threshold : timeOfThisDay h1 = timeOfThisDay h2.
Hypothesis same_conversion : forall v, Date_of h1 v = Date_of h2 v.

Lemma newDateOf_hosts value : newDateOf h1 value = newDateOf h2 value.
Proof. destruct value; simpl; auto. Qed.

Lemma callCustomValidator_hosts ck value st :
  callCustomValidator h1 ck value st = callCustomValidator h2 ck value st.
Proof.
  destruct ck as [r msg | f]; simpl; [| reflexivity].
  rewrite newDateOf_hosts, same_threshold. reflexivity.
Qed.

Lemma runCustomCriteria_hosts cs value : forall err st,
  runCustomCriteria h1 cs value err st = runCustomCriteria h2 cs value err st.
Proof.
  induction cs as [| ck cs IH]; intros err st; simpl; [reflexivity |].
  unfold mbind, M_bind. rewrite callCustomValidator_hosts.
  destruct (callCustomValidator h2 ck value st) as [[[e |] | ex] st']; auto.
Qed.

Lemma typedField_validate_hosts this value st :
  typedField_validate h1 this value st = typedField_validate h2 this value st.
Proof.
  destruct (builders st !! this) as [b |] eqn:Hb.
  - destruct (criteriaObjects st !! criteria b) as [c |] eqn:Hc.
    + rewrite !(typedField_validate_unfold _ _ _ _ _ _ Hb Hc).
      destruct ((if required c && requiredFires value
                 then requiredFailure b [] else mret []) st) as [[err | ex] st'];
        [apply runCustomCriteria_hosts | reflexivity].
    + unfold typedField_validate, mbind, M_bind, readBuilder, readCriteria.
      rewrite Hb, Hc. reflexivity.
  - unfold typedField_validate, mbind, M_bind, readBuilder.
    rewrite Hb. reflexivity.
Qed.

Lemma validateFrom_hosts schema : forall data acc st,
  validateFrom h1 schema data acc st = validateFrom h2 schema data acc st.
Proof.
  induction schema as [| fieldName r rest IHrest | fieldName sub rest IHsub IHrest]
    using ValidationSchema_by_key; intros data acc st.
  - reflexivity.
  - cbn [validateFrom isFinalValidatorField].
    unfold mbind, M_bind, liftCompletion in *.
    destruct (getProp data fieldName) as [value | e]; [| reflexivity].
    rewrite typedField_validate_hosts.
    destruct (typedField_validate h2 r value st) as [[e | ex] st'];
      [apply IHrest | reflexivity].
  - cbn [validateFrom isFinalValidatorField].
    unfold mbind, M_bind, liftCompletion, throw in *.
    destruct (getProp data fieldName) as [value | e]; [| reflexivity].
    destruct (hasKey "__isValidator" sub); [reflexivity |].
    rewrite IHsub.
    destruct (validateFrom h2 sub value [] st) as [[res | ex] st'];
      [apply IHrest | reflexivity].
Qed.

End TwoHosts.

(** ** The required check and strings *)

(** Claim C1, evaluated on the code.  The descriptor
    [field("name").string().required()] validates the blank primitive
    strings ["  "] and [""] without any error: the required check tests
    [value instanceof String], which no primitive string satisfies, so the
    required message the claim expects is not produced.  The same blank
    text held by a [String] object does produce it. *)
Theorem blank_primitive_string_passes_required (host : Host) :
  let st := runCalls [CallField KindString "name"; CallRequired 0%nat None] initialStore in
  result (typedField_validate host 0%nat (VString "  ")) st = Normal [] /\
  result (typedField_validate host 0%nat (VString "")) st = Normal [] /\
  result (typedField_validate host 0%nat (VStringObject "  ")) st
  = Normal ["Name is required"].
Proof. repeat split; vm_compute; reflexivity. Qed.

(** ** Descriptors share their criteria *)

(** What [required(msg)] does to the store: the criteria object the
    descriptor refers to becomes required, and [msg] is recorded under
    ["required"] when it is a non-empty string; an absent or empty [msg]
    leaves the recorded messages as they were. *)
Lemma typedField_required_effect st this msg b c :
  builders st !! this = Some b ->
  criteriaObjects st !! criteria b = Some c ->
  let st' := final (typedField_required this msg) st in
  result (typedField_required this msg) st = Normal this /\
  criteriaObjects st' !! criteria b = Some {| required := true; type := type c |} /\
  builders st' !! this
  = Some {| _fieldName := _fieldName b;
            criteria := criteria b;
            customCriteria := customCriteria b;
            _messages := if truthyMsg msg
                         then <["required" := default "" msg]> (_messages b)
                         else _messages b |}.
Proof.
  intros Hb Hc. unfold typedField_required; unfold_monad; simpl.
  rewrite Hb, Hc; simpl.
  assert (Hlt : (criteria b < length (criteriaObjects st))%nat)
    by (eapply lookup_lt_Some; eassumption).
  assert (Hlt' : (this < length (builders st))%nat)
    by (eapply lookup_lt_Some; eassumption).
  destruct (truthyMsg msg); simpl; repeat split.
  - apply list_lookup_insert_eq; assumption.
  - apply list_lookup_insert_eq; assumption.
  - apply list_lookup_insert_eq; assumption.
  - rewrite Hb. destruct b; reflexivity.
Qed.

Lemma typedField_required_others st this msg other :
  other <> this ->
  builders (final (typedField_required this msg) st) !! other = builders st !! other.
Proof.
  intros Hne. unfold typedField_required; unfold_monad; simpl.
  destruct (builders st !! this) as [b |]; [| reflexivity].
  destruct (criteriaObjects st !! criteria b) as [c |]; [| reflexivity].
  simpl. destruct (truthyMsg msg); simpl; [| reflexivity].
  apply list_lookup_insert_ne. congruence.
Qed.

(** Property X4.  In a store reached through the builder, [required()]
    called on one descriptor makes the criteria of every descriptor
    required. *)
Theorem required_reaches_every_descriptor st this other msg :
  reachable st ->
  is_Some (builders st !! this) ->
  is_Some (builders st !! other) ->
  exists c,
    criteriaOf (final (typedField_required this msg) st) other = Some c /\
    required c = true.
Proof.
  intros Hst [b Hb] [bo Hbo]. apply reachable_wellFormed in Hst.
  destruct (wellFormed_lookup st this b Hst Hb) as (Hcr & _ & _ & [c Hc]).
  destruct (wellFormed_lookup st other bo Hst Hbo) as (Hcro & _).
  rewrite <- Hcr in Hc.
  destruct (typedField_required_effect st this msg b c Hb Hc) as (_ & Hc' & Hb').
  exists {| required := true; type := type c |}. split; [| reflexivity].
  unfold criteriaOf. destruct (decide (other = this)) as [-> | Hne].
  - rewrite Hb'. exact Hc'.
  - rewrite (typedField_required_others st this msg other Hne), Hbo.
    rewrite Hcro, <- Hcr. exact Hc'.
Qed.

Lemma required_reaches_every_descriptor_witness :
  exists c,
    criteriaOf (final (typedField_required 0%nat None)
                  (runCalls [CallField KindString "a"; CallField KindDate "b"] initialStore))
      1%nat = Some c /\
    required c = true.
Proof.
  apply (required_reaches_every_descriptor
           (runCalls [CallField KindString "a"; CallField KindDate "b"] initialStore)
           0%nat 1%nat None).
  - exists [CallField KindString "a"; CallField KindDate "b"]. reflexivity.
  - vm_compute. eauto.
  - vm_compute. eauto.
Defined.

(** Claim C2, evaluated on the code.  Two descriptors are built, [a] and
    [b]; before [a.required()] the criteria of [b] say "not required" and
    [b] accepts [undefined]; after it the criteria of [b] say "required"
    and [b] rejects [undefined], although nothing was called on [b].
    Both descriptors refer to the one object [DEFAULT_CRITERIA]. *)
Theorem required_on_one_descriptor_changes_the_other (host : Host) :
  let st0 := runCalls [CallField KindString "a"; CallField KindString "b"] initialStore in
  let st1 := final (typedField_required 0%nat None) st0 in
  criteriaOf st0 1%nat = Some {| required := false; type := FieldType_String |} /\
  criteriaOf st1 1%nat = Some {| required := true; type := FieldType_String |} /\
  result (typedField_validate host 1%nat VUndefined) st0 = Normal [] /\
  result (typedField_validate host 1%nat VUndefined) st1 = Normal ["B is required"].
Proof. repeat split; vm_compute; reflexivity. Qed.

(** ** The threshold of [onlyFuture] *)

(** Claim C3, evaluated on the code.  The descriptor is
    [field("due_date").date().onlyFuture()], the host is in UTC.
    On Wednesday 2026-11-04 the day of the week is 3, so the threshold is
    the 3rd of November: noon of the 3rd, which is before the local
    midnight that starts the 4th, is accepted.  On Saturday 2026-08-01 the
    day of the week is 6, so the threshold is the 6th of August: noon of
    the 3rd of August, two days ahead, is rejected as past. *)
Theorem onlyFuture_threshold_is_not_start_of_today :
  let st := runCalls [CallField KindDate "due_date"; CallOnlyFuture 0%nat None] initialStore in
  let wednesday := utcHost noon_2026_11_04 in
  let saturday := utcHost noon_2026_08_01 in
  (noon_2026_11_03 < startOfToday wednesday /\
   result (typedField_validate wednesday 0%nat (VDate (Some noon_2026_11_03))) st
   = Normal []) /\
  (startOfToday saturday <= noon_2026_08_03 /\
   result (typedField_validate saturday 0%nat (VDate (Some noon_2026_08_03))) st
   = Normal ["Due date can't be in the past"]).
Proof.
  split; split.
  - vm_compute; reflexivity.
  - vm_compute; reflexivity.
  - vm_compute; discriminate.
  - vm_compute; reflexivity.
Qed.

(** ** Nested schemas and absent data *)






(** Claim C4, evaluated on the code.  For the schema
    [{address: {city: field("city").string()}}] and the data [{}] the
    value under [address] is [undefined]; the recursive call reads
    [data["city"]] of it, and [validate] ends with a [TypeError] instead
    of a map of errors. *)
Theorem validate_throws_on_absent_nested_data (host : Host) :
  let st := runCalls [CallField KindString "city"] initialStore in
  let schema :=
    SchemaCons "address" (SubSchema (SchemaCons "city" (Builder 0%nat) SchemaNil)) SchemaNil in
  result (validate host schema (VObject [])) st
  = Throw (TypeError "Cannot read properties of undefined").
Proof. vm_compute; reflexivity. Qed.

(** Claim C5, evaluated on the code.  For the schema of the specification,
    [{name: field("name").string().required(),
      address: {city: field("city").string().required()}}],
    the data [{name: "", address: {city: ""}}] yields the empty map, not
    the two-level map of two "is required" messages: the empty strings are
    primitive strings, which the required check lets through.  The data
    [{name: "Ann", address: {city: "Rome"}}] yields the empty map as well. *)
Theorem schema_example_with_empty_strings_has_no_errors (host : Host) :
  let st :=
    runCalls [CallField KindString "name"; CallRequired 0%nat None;
              CallField KindString "city"; CallRequired 1%nat None] initialStore in
  let schema := nameAddressSchema 0%nat 1%nat in
  result (validate host schema
            (VObject [("name", VString ""); ("address", VObject [("city", VString "")])])) st
  = Normal [] /\
  result (validate host schema
            (VObject [("name", VString "Ann"); ("address", VObject [("city", VString "Rome")])])) st
  = Normal [].
Proof. repeat split; vm_compute; reflexivity. Qed.

(** Claim C7, evaluated on the code.  A blank primitive string is not
    among the values the required check takes for empty: the required
    descriptor [field("tags").array().required()] accepts [" "], while it
    rejects the empty array and the empty set. *)
Theorem blank_primitive_string_is_not_empty_for_required (host : Host) :
  let st := runCalls [CallField KindArray "tags"; CallRequired 0%nat None] initialStore in
  String.length (JsString.trim " ") = 0%nat /\
  requiredFires (VString " ") = false /\
  result (typedField_validate host 0%nat (VString " ")) st = Normal [] /\
  result (typedField_validate host 0%nat (VArray [])) st = Normal ["Tags is required"] /\
  result (typedField_validate host 0%nat (VSet [])) st = Normal ["Tags is required"].
Proof. repeat split; vm_compute; reflexivity. Qed.

(** ** The message of the required check *)

(** Claim C6, as amended.  For a descriptor that has a name, whose
    criteria are required, validating [undefined] returns a non-empty
    sequence.  Its first element is the message recorded under
    ["required"] when that message is a non-empty string; otherwise (no
    message recorded, or the empty string) it is the default message: the
    field name with every underscore replaced by a space, made lower case
    with an upper-case first character, followed by [" is required"]. *)
Theorem required_message_on_undefined host st this b c name :
  builders st !! this = Some b ->
  criteriaObjects st !! criteria b = Some c ->
  required c = true ->
  _fieldName b = NameString name ->
  Forall (checkerBound st) (customCriteria b) ->
  let byDefault :=
    JsString.upperFirst (JsString.toLowerCase (JsString.replaceAll name "_" " "))
    +:+ " is required" in
  exists rest,
    result (typedField_validate host this VUndefined) st
    = Normal ((match _messages b !! "required" with
               | Some configured =>
                   if JsString.isEmpty configured then byDefault else configured
               | None => byDefault
               end) :: rest).
Proof.
  intros Hb Hc Hr Hn Hw byDefault. unfold result.
  rewrite (typedField_validate_named host this VUndefined st b c Hb Hc); trivial.
  - unfold requiredMessages. rewrite Hr. simpl.
    eexists. f_equal. f_equal.
    unfold getMessageForCriteria, buildDefaultMessageForCriteria, fieldReadable.
    rewrite Hn. simpl.
    destruct (_messages b !! "required") as [configured |]; simpl; [| reflexivity].
    destruct (JsString.isEmpty configured); reflexivity.
  - rewrite Hn. discriminate.
Qed.

Lemma required_message_on_undefined_witness :
  exists rest,
    result (typedField_validate (utcHost 0) 0%nat VUndefined) store6
    = Normal ("Please fill this in" :: rest).
Proof.
  apply (required_message_on_undefined (utcHost 0) store6 0%nat builder6
           {| required := true; type := FieldType_String |} "first_name").
  - vm_compute; reflexivity.
  - vm_compute; reflexivity.
  - reflexivity.
  - reflexivity.
  - constructor.
Defined.

(** Claim C6 as stated fails when the message given is the empty string:
    after [field("name").string().required("")] the first element for
    [undefined] is the default message, not the message given. *)
Lemma empty_required_message_is_not_used :
  let given := "" in
  let st := runCalls [CallField KindString "name"; CallRequired 0%nat (Some given)]
              initialStore in
  exists first rest,
    result (typedField_validate (utcHost 0) 0%nat VUndefined) st = Normal (first :: rest) /\
    first = "Name is required" /\
    first <> given.
Proof.
  exists "Name is required", [].
  split; [vm_compute; reflexivity | split; [reflexivity | discriminate]].
Qed.

(** ** Order and accumulation of the checks *)

(** Claim C8.  For a descriptor that has a name, [validate] returns the
    messages of the required check, of which there is at most one,
    followed by the answers of the custom criteria that are not [null],
    in the order in which the criteria were registered; each criterion is
    asked whatever the required check and the criteria before it
    answered, and the store is left as it was. *)
Theorem validate_accumulates_in_order host st this b c value :
  builders st !! this = Some b ->
  criteriaObjects st !! criteria b = Some c ->
  _fieldName b <> NameNull ->
  Forall (checkerBound st) (customCriteria b) ->
  typedField_validate host this value st
  = (Normal (requiredMessages b c value
             ++ omap (checkerAnswer host st value) (customCriteria b))%list, st) /\
  (length (requiredMessages b c value) <= 1)%nat.
Proof.
  intros Hb Hc Hn Hw. split.
  - apply typedField_validate_named; assumption.
  - unfold requiredMessages. destruct (required c && requiredFires value); simpl; lia.
Qed.

Lemma validate_accumulates_in_order_witness :
  typedField_validate (utcHost 0) 0%nat (VArray []) store8
  = (Normal (["Tags is required"] ++ ["first"; "last"])%list, store8) /\
  (length ["Tags is required"] <= 1)%nat.
Proof.
  apply (validate_accumulates_in_order (utcHost 0) store8 0%nat builder8
           {| required := true; type := FieldType_String |} (VArray [])).
  - reflexivity.
  - reflexivity.
  - discriminate.
  - repeat constructor. simpl. eauto.
Defined.

(** ** Repeated validation *)

(** Claim C9.  For a given host, a call of [validate] leaves the store,
    and so every descriptor's criteria, custom criteria and messages, as
    it found them, and a second call with the same schema and data
    returns what the first call returned. *)
Theorem validate_is_idempotent host st schema data :
  let st1 := final (validate host schema data) st in
  let st2 := final (validate host schema data) st1 in
  result (validate host schema data) st = result (validate host schema data) st1 /\
  st1 = st /\
  st2 = st.
Proof.
  intros st1 st2.
  assert (E1 : st1 = st) by apply validate_final.
  assert (E2 : st2 = st) by (unfold st2; rewrite E1; apply validate_final).
  rewrite E1. auto.
Qed.

(** Two hosts that give the same threshold [timeOfThisDay()] and the same
    conversion of values to dates give the same results. *)
Lemma validate_twice h1 h2 st schema data :
  timeOfThisDay h1 = timeOfThisDay h2 ->
  (forall v, Date_of h1 v = Date_of h2 v) ->
  let st1 := final (validate h1 schema data) st in
  let st2 := final (validate h2 schema data) st1 in
  result (validate h1 schema data) st = result (validate h2 schema data) st1 /\
  st1 = st /\
  st2 = st.
Proof.
  intros Ht Hd st1 st2.
  assert (E1 : st1 = st) by apply validate_final.
  assert (E2 : st2 = st) by (unfold st2; rewrite E1; apply validate_final).
  repeat split; try assumption.
  rewrite E1. unfold result, validate.
  rewrite (validateFrom_hosts h1 h2 Ht Hd). reflexivity.
Qed.

(** The result does depend on the host's clock.  The schema is [{due: field("due").date().onlyFuture()}] and the data
    [{due: <noon of 2026-11-05>}]; nothing is changed between the calls.
    Called on 2026-11-04 [validate] returns the empty map; called again on
    2026-11-07 it returns an error for [due]. *)
Lemma validate_twice_on_different_days :
  let first := validate (utcHost noon_2026_11_04) schema9 data9 in
  let second := validate (utcHost noon_2026_11_07) schema9 data9 in
  result first store9 = Normal [] /\
  result second (final first store9)
  = Normal [("due", ErrorList ["Due can't be in the past"])] /\
  result first store9 <> result second (final first store9).
Proof.
  split; [vm_compute; reflexivity | split; [vm_compute; reflexivity |]].
  vm_compute. discriminate.
Qed.

(** ** The field-name assertion *)

Lemma typedField_validate_no_assertion host st this value b message :
  builders st !! this = Some b ->
  _fieldName b <> NameNull ->
  result (typedField_validate host this value) st <> Throw (AssertionError message).
Proof.
  intros Hb Hn. unfold result.
  destruct (criteriaObjects st !! criteria b) as [c |] eqn:Hc.
  - rewrite (typedField_validate_unfold _ _ _ _ _ _ Hb Hc).
    assert (Hr : forall err st', fst (runCustomCriteria host (customCriteria b) value err st')
                                 <> Throw (AssertionError message)).
    { induction (customCriteria b) as [| ck cs IH]; intros err st'; simpl; [discriminate |].
      unfold mbind, M_bind.
      destruct ck as [r msg | f]; simpl; unfold_monad.
      - destruct (negb (truthy value)); [apply IH |].
        destruct (JsDate.lt _ _); [| apply IH].
        destruct (builders st' !! r); [apply IH | discriminate].
      - destruct (f value); apply IH. }
    destruct (required c && requiredFires value).
    + unfold requiredFailure; unfold_monad.
      rewrite bool_decide_eq_true_2 by assumption. simpl. apply Hr.
    + unfold_monad. apply Hr.
  - unfold typedField_validate, mbind, M_bind, readBuilder, readCriteria.
    rewrite Hb, Hc. discriminate.
Qed.

(** Claim C10, as amended.  When the field name of a descriptor is [null]
    and the required check fires (the criteria are required and the value
    is one the check takes for empty), [validate] does not return: it
    aborts with the assertion error "Field name not specified".  In a
    store reached through the builder, where every descriptor comes from
    [field(name)], no call of a descriptor's [validate] ends with an
    assertion error. *)
Theorem field_name_assertion :
  (forall host st this b c value,
     builders st !! this = Some b ->
     criteriaObjects st !! criteria b = Some c ->
     _fieldName b = NameNull ->
     required c = true ->
     requiredFires value = true ->
     typedField_validate host this value st
     = (Throw (AssertionError "Field name not specified"), st)) /\
  (forall host st this value message,
     reachable st ->
     result (typedField_validate host this value) st <> Throw (AssertionError message)).
Proof.
  split.
  - intros. eapply typedField_validate_unnamed; eassumption.
  - intros host st this value message Hst.
    destruct (builders st !! this) as [b |] eqn:Hb.
    + apply reachable_wellFormed in Hst.
      destruct (wellFormed_lookup st this b Hst Hb) as (_ & [name Hn] & _).
      eapply typedField_validate_no_assertion; [eassumption |].
      rewrite Hn. discriminate.
    + unfold result, typedField_validate, mbind, M_bind, readBuilder.
      rewrite Hb. discriminate.
Qed.

Lemma field_name_assertion_witness :
  typedField_validate (utcHost 0) 0%nat VUndefined store10
  = (Throw (AssertionError "Field name not specified"), store10) /\
  result (typedField_validate (utcHost 0) 0%nat VUndefined) store6
  <> Throw (AssertionError "Field name not specified").
Proof.
  split.
  - apply (proj1 field_name_assertion (utcHost 0) store10 0%nat builder10
             {| required := true; type := FieldType_String |} VUndefined);
      reflexivity.
  - apply (proj2 field_name_assertion (utcHost 0) store6 0%nat VUndefined).
    exists [CallField KindString "first_name";
            CallRequired 0%nat (Some "Please fill this in")].
    reflexivity.
Defined.

(** Claim C10 as stated fails on two counts.  A descriptor whose name is
    [null] and whose criteria are required validates the string ["x"]
    and returns normally, because the assertion sits in the branch taken
    when the required check fires; and a descriptor whose name is
    [undefined] passes the test [_fieldName !== null], so for [undefined]
    it returns a message built from the text "undefined". *)
Lemma unset_name_does_not_always_abort :
  typedField_validate (utcHost 0) 0%nat (VString "x") store10 = (Normal [], store10) /\
  typedField_validate (utcHost 0) 0%nat VUndefined storeUndefinedName
  = (Normal ["Undefined is required"], storeUndefinedName).
Proof. split; vm_compute; reflexivity. Qed.

(** * Further properties of the code *)

(** ** The readable field name and the messages *)

Lemma JsString_map_length f s : String.length (JsString.map f s) = String.length s.
Proof. induction s; simpl; congruence. Qed.

Lemma JsString_map_map f g s :
  JsString.map f (JsString.map g s) = JsString.map (fun c => f (g c)) s.
Proof. induction s; simpl; congruence. Qed.

Lemma JsString_map_ext f g s :
  (forall c, f c = g c) -> JsString.map f s = JsString.map g s.
Proof. intros H. induction s; simpl; congruence. Qed.

Lemma JsString_all_map p f s :
  JsString.all p (JsString.map f s) = JsString.all (fun c => p (f c)) s.
Proof. induction s; simpl; congruence. Qed.

Lemma JsString_all_true p s : (forall c, p c = true) -> JsString.all p s = true.
Proof. intros H. induction s; simpl; [reflexivity |]. rewrite H; assumption. Qed.

Ltac by_cases_on_ascii c :=
  destruct c as [[] [] [] [] [] [] [] []]; vm_compute; reflexivity.

Lemma toLowerChar_not_underscore c :
  isUnderscore (JsString.toLowerChar (if isUnderscore c then " "%char else c)) = false.
Proof. by_cases_on_ascii c. Qed.

Lemma toUpperChar_underscore c :
  isUnderscore (JsString.toUpperChar c) = isUnderscore c.
Proof. by_cases_on_ascii c. Qed.

Lemma toLowerChar_not_upper c : isUpperCase (JsString.toLowerChar c) = false.
Proof. by_cases_on_ascii c. Qed.

Lemma toLowerChar_toUpperChar c :
  JsString.toLowerChar (JsString.toUpperChar (JsString.toLowerChar c))
  = JsString.toLowerChar c.
Proof. by_cases_on_ascii c. Qed.

Lemma toLowerChar_idempotent c :
  JsString.toLowerChar (JsString.toLowerChar c) = JsString.toLowerChar c.
Proof. by_cases_on_ascii c. Qed.

Lemma fieldReadable_unfold name :
  fieldReadable (NameString name)
  = JsString.upperFirst
      (JsString.map (fun c => JsString.toLowerChar (if isUnderscore c then " "%char else c))
         name).
Proof.
  unfold fieldReadable, JsString.capitalize, JsString.toLowerCase, JsString.replaceAll.
  simpl. rewrite JsString_map_map. reflexivity.
Qed.

(** Property X7.  The readable form of a field name of ASCII characters
    has the length of the name, holds no underscore, and holds no
    upper-case letter after its first character. *)
Theorem fieldReadable_shape name :
  asciiOnly name = true ->
  String.length (fieldReadable (NameString name)) = String.length name /\
  JsString.all (fun c => negb (isUnderscore c)) (fieldReadable (NameString name)) = true /\
  JsString.all (fun c => negb (isUpperCase c)) (tail (fieldReadable (NameString name))) = true.
Proof.
  intros _. rewrite fieldReadable_unfold.
  destruct name as [| c rest]; simpl; [auto |].
  rewrite JsString_map_length. split; [reflexivity |]. split.
  - rewrite toUpperChar_underscore, toLowerChar_not_underscore. simpl.
    rewrite JsString_all_map. apply JsString_all_true.
    intros c'. rewrite toLowerChar_not_underscore. reflexivity.
  - rewrite JsString_all_map. apply JsString_all_true.
    intros c'. rewrite toLowerChar_not_upper. reflexivity.
Qed.

Lemma readable_char_fixed c :
  JsString.toLowerChar
    (if isUnderscore (JsString.toLowerChar (if isUnderscore c then " "%char else c))
     then " "%char
     else JsString.toLowerChar (if isUnderscore c then " "%char else c))
  = JsString.toLowerChar (if isUnderscore c then " "%char else c).
Proof. by_cases_on_ascii c. Qed.

Lemma readable_first_char_fixed c :
  JsString.toUpperChar
    (JsString.toLowerChar
       (if isUnderscore
             (JsString.toUpperChar
                (JsString.toLowerChar (if isUnderscore c then " "%char else c)))
        then " "%char
        else JsString.toUpperChar
               (JsString.toLowerChar (if isUnderscore c then " "%char else c))))
  = JsString.toUpperChar (JsString.toLowerChar (if isUnderscore c then " "%char else c)).
Proof. by_cases_on_ascii c. Qed.

(** Property X8.  Making the readable form of a field name of ASCII
    characters readable again changes nothing. *)
Theorem fieldReadable_idempotent name :
  asciiOnly name = true ->
  fieldReadable (NameString (fieldReadable (NameString name))) = fieldReadable (NameString name).
Proof.
  intros _. rewrite !fieldReadable_unfold.
  destruct name as [| c rest]; simpl; [reflexivity |].
  rewrite readable_first_char_fixed. f_equal.
  rewrite JsString_map_map. apply JsString_map_ext. intros c'.
  apply readable_char_fixed.
Qed.

(** Property X9.  The message resolved for a criterion is never the empty
    string: it is a non-empty override, a default built from the name, or
    ["Unknown error"]. *)
Theorem getMessageForCriteria_nonempty builder fieldName criteria :
  getMessageForCriteria builder fieldName criteria <> "".
Proof.
  unfold getMessageForCriteria, buildDefaultMessageForCriteria.
  destruct (_messages builder !! criteria) as [[| c m] |]; simpl; try discriminate;
    destruct (String.eqb criteria "required"); try discriminate;
    destruct (fieldReadable fieldName); discriminate.
Qed.

(** ** The method [required] *)

Lemma typedField_required_final st this msg :
  final (typedField_required this msg) st
  = match builders st !! this with
    | Some b =>
        match criteriaObjects st !! criteria b with
        | Some c =>
            {| criteriaObjects :=
                 <[criteria b := {| required := true; type := type c |}]> (criteriaObjects st);
               builders :=
                 if truthyMsg msg
                 then <[this := {| _fieldName := _fieldName b;
                                   criteria := criteria b;
                                   customCriteria := customCriteria b;
                                   _messages := <["required" := default "" msg]> (_messages b) |}]>
                        (builders st)
                 else builders st |}
        | None => st
        end
    | None => st
    end.
Proof.
  unfold typedField_required; unfold_monad; simpl.
  destruct (builders st !! this) as [b |]; [| reflexivity].
  destruct (criteriaObjects st !! criteria b) as [c |]; [| reflexivity].
  simpl. destruct (truthyMsg msg); reflexivity.
Qed.

(** Property X10.  Calling [required] twice on a descriptor leaves the
    store that one call with the message that counts leaves: the second
    message when it is a non-empty string, else the first.  In particular
    [required(msg)] twice is [required(msg)] once. *)
Theorem required_twice st this first second :
  final (typedField_required this second) (final (typedField_required this first) st)
  = final (typedField_required this (laterMessage first second)) st.
Proof.
  rewrite !typedField_required_final. unfold laterMessage.
  destruct (builders st !! this) as [b |] eqn:Hb; simpl; [| rewrite Hb; reflexivity].
  destruct (criteriaObjects st !! criteria b) as [c |] eqn:Hc; simpl;
    [| rewrite Hb, Hc; reflexivity].
  assert (Hlt : (criteria b < length (criteriaObjects st))%nat)
    by (eapply lookup_lt_Some; eassumption).
  assert (Hlt' : (this < length (builders st))%nat)
    by (eapply lookup_lt_Some; eassumption).
  destruct (truthyMsg first) eqn:E1; simpl.
  - rewrite list_lookup_insert_eq by assumption. simpl.
    rewrite list_lookup_insert_eq by assumption. simpl.
    rewrite list_insert_insert_eq.
    destruct (truthyMsg second) eqn:E2; simpl; rewrite ?E1, ?E2.
    + rewrite list_insert_insert_eq, insert_insert_eq. reflexivity.
    + reflexivity.
  - rewrite Hb. rewrite list_lookup_insert_eq by assumption. simpl.
    rewrite list_insert_insert_eq.
    destruct (truthyMsg second) eqn:E2; simpl; rewrite ?E1, ?E2; reflexivity.
Qed.

(** Property X11.  [required] creates and removes no descriptor, and
    changes no descriptor's name, criteria reference or custom criteria;
    the messages of every descriptor other than the one it is called on
    stay as they are. *)
Theorem required_frame st this msg other b :
  builders st !! other = Some b ->
  let st' := final (typedField_required this msg) st in
  length (builders st') = length (builders st) /\
  exists b',
    builders st' !! other = Some b' /\
    _fieldName b' = _fieldName b /\
    criteria b' = criteria b /\
    customCriteria b' = customCriteria b /\
    (other <> this -> _messages b' = _messages b).
Proof.
  intros Hb st'. unfold st'. rewrite typedField_required_final.
  destruct (builders st !! this) as [bt |] eqn:Ht; [| eauto 10].
  destruct (criteriaObjects st !! criteria bt) as [c |]; [| eauto 10].
  simpl. destruct (truthyMsg msg); [| eauto 10].
  rewrite length_insert. split; [reflexivity |].
  destruct (decide (other = this)) as [-> | Hne].
  - rewrite list_lookup_insert_eq by (eapply lookup_lt_Some; eassumption).
    assert (bt = b) as -> by congruence.
    eexists; repeat split; try reflexivity. congruence.
  - rewrite list_lookup_insert_ne by congruence. eauto 10.
Qed.

Lemma runCall_defaultCriteria st call c :
  wellFormed st ->
  defaultCriteria st = Some c ->
  exists c',
    defaultCriteria (final (runCall call) st) = Some c' /\
    type c' = type c /\
    (required c = true -> required c' = true).
Proof.
  intros Hst Hc. unfold defaultCriteria in *.
  destruct call as [[] fieldName | this msg | this msg]; simpl;
    try (exists c; repeat split; trivial; fail).
  - rewrite typedField_required_final.
    destruct (builders st !! this) as [b |] eqn:Hb; [| eauto].
    destruct (wellFormed_lookup st this b Hst Hb) as (Hcr & _).
    rewrite Hcr, Hc. simpl.
    rewrite list_lookup_insert_eq by (eapply lookup_lt_Some; eassumption).
    eexists; repeat split; reflexivity.
  - unfold dateField_onlyFuture; unfold_monad; simpl.
    destruct (builders st !! this); simpl; eauto.
Qed.

Lemma runCalls_defaultCriteria calls : forall st c,
  wellFormed st ->
  defaultCriteria st = Some c ->
  exists c',
    defaultCriteria (runCalls calls st) = Some c' /\
    type c' = type c /\
    (required c = true -> required c' = true).
Proof.
  induction calls as [| call calls IH]; intros st c Hst Hc; simpl; [eauto |].
  destruct (runCall_defaultCriteria st call c Hst Hc) as (c1 & Hc1 & Ht1 & Hr1).
  destruct (IH _ c1 (wellFormed_runCall st call Hst) Hc1) as (c2 & Hc2 & Ht2 & Hr2).
  exists c2. split; [assumption | split; [congruence | auto]].
Qed.

Lemma criteriaOf_wellFormed st this b :
  wellFormed st -> builders st !! this = Some b ->
  criteriaOf st this = defaultCriteria st.
Proof.
  intros Hst Hb. unfold criteriaOf, defaultCriteria. rewrite Hb.
  destruct (wellFormed_lookup st this b Hst Hb) as (-> & _). reflexivity.
Qed.

(** Property X12.  Once the criteria of a descriptor are required, no
    sequence of calls of the builder makes them optional again, and every
    descriptor there is afterwards, those built later included, is
    required. *)
Theorem required_is_permanent st calls this c :
  reachable st ->
  criteriaOf st this = Some c ->
  required c = true ->
  forall other,
    is_Some (builders (runCalls calls st) !! other) ->
    exists c', criteriaOf (runCalls calls st) other = Some c' /\ required c' = true.
Proof.
  intros Hst Hc Hr other [bo Hbo]. apply reachable_wellFormed in Hst.
  assert (Hd : defaultCriteria st = Some c).
  { unfold criteriaOf in Hc. destruct (builders st !! this) as [b |] eqn:Hb; [| discriminate].
    rewrite <- (criteriaOf_wellFormed st this b Hst Hb). unfold criteriaOf. rewrite Hb. exact Hc. }
  destruct (runCalls_defaultCriteria calls st c Hst Hd) as (c' & Hc' & _ & Hr').
  exists c'. split; [| auto].
  rewrite (criteriaOf_wellFormed _ other bo (wellFormed_runCalls calls st Hst) Hbo).
  exact Hc'.
Qed.

(** Property X13.  Whichever of [string()], [array()], [file()] and
    [date()] built a descriptor, the [type] of its criteria is
    [FieldType.String]. *)
Theorem criteria_type_is_always_String st this c :
  reachable st ->
  criteriaOf st this = Some c ->
  type c = FieldType_String.
Proof.
  intros [calls ->] Hc.
  destruct (runCalls_defaultCriteria calls initialStore
              {| required := false; type := FieldType_String |}
              wellFormed_initial eq_refl) as (c' & Hc' & Ht & _).
  unfold criteriaOf in Hc.
  destruct (builders (runCalls calls initialStore) !! this) as [b |] eqn:Hb; [| discriminate].
  rewrite <- (criteriaOf_wellFormed _ this b
                (wellFormed_runCalls calls _ wellFormed_initial) Hb) in Hc'.
  unfold criteriaOf in Hc'. rewrite Hb in Hc'. simpl in Ht. congruence.
Qed.

(** Property X14.  [field(name).<kind>().required(msg).validate(undefined)]
    returns exactly one message: [msg] when it is a non-empty string, else
    the readable name followed by [" is required"]. *)
Theorem fresh_required_descriptor host st kind fieldName msg :
  reachable st ->
  result (this ← runCall (CallField kind fieldName);
          this ← typedField_required this msg;
          typedField_validate host this VUndefined) st
  = Normal [if truthyMsg msg then default "" msg
            else fieldReadable (NameString fieldName) +:+ " is required"].
Proof.
  intros Hst. apply reachable_wellFormed in Hst.
  pose proof (wellFormed_runCall st (CallField kind fieldName) Hst) as Hst1.
  assert (Hrun : runCall (CallField kind fieldName) st
                 = (Normal (length (builders st)),
                    {| criteriaObjects := criteriaObjects st;
                       builders := (builders st ++
                                    [{| _fieldName := NameString fieldName;
                                        criteria := DEFAULT_CRITERIA;
                                        customCriteria := [];
                                        _messages := ∅ |}])%list |}))
    by (destruct kind; reflexivity).
  unfold final in Hst1. rewrite Hrun in Hst1. simpl in Hst1.
  unfold result, mbind, M_bind at 1. rewrite Hrun.
  set (b0 := {| _fieldName := NameString fieldName; criteria := DEFAULT_CRITERIA;
                customCriteria := []; _messages := ∅ |}) in *.
  set (st1 := {| criteriaObjects := criteriaObjects st;
                 builders := (builders st ++ [b0])%list |}) in *.
  set (this := length (builders st)).
  assert (Hb : builders st1 !! this = Some b0).
  { simpl. apply list_lookup_middle. reflexivity. }
  destruct (wellFormed_lookup st1 this b0 Hst1 Hb) as (_ & _ & _ & [c Hc]).
  destruct (typedField_required_effect st1 this msg b0 c Hb Hc) as (Hres & Hc' & Hb').
  unfold result, final in *. unfold M_bind.
  destruct (typedField_required this msg st1) as [r st2]. simpl in *. subst r.
  rewrite (typedField_validate_named host this VUndefined st2 _ _ Hb' Hc');
    [| discriminate | constructor].
  simpl. unfold requiredMessages, getMessageForCriteria, buildDefaultMessageForCriteria.
  simpl. destruct msg as [[| ch m] |]; reflexivity.
Qed.

(** ** The method [onlyFuture] *)

Lemma callCustomValidator_sameNames host st st' ck value :
  sameNames st st' ->
  result (callCustomValidator host ck value) st'
  = result (callCustomValidator host ck value) st.
Proof.
  intros Hn. destruct ck as [r msg | f]; unfold callCustomValidator; unfold_monad; simpl;
    [| reflexivity].
  destruct (negb (truthy value)); [reflexivity |].
  destruct (JsDate.lt _ _); [| reflexivity].
  specialize (Hn r). revert Hn.
  destruct (builders st' !! r) as [b' |], (builders st !! r) as [b |];
    cbv [fmap option_fmap option_map]; intros Hn; try discriminate; try reflexivity.
  injection Hn as ->. reflexivity.
Qed.

Lemma runCustomCriteria_sameNames host st st' cs value :
  sameNames st st' ->
  forall err,
    result (runCustomCriteria host cs value err) st'
    = result (runCustomCriteria host cs value err) st.
Proof.
  intros Hn. induction cs as [| ck cs IH]; intros err; simpl; [reflexivity |].
  unfold result, mbind, M_bind in *.
  pose proof (callCustomValidator_sameNames host st st' ck value Hn) as Hck.
  pose proof (callCustomValidator_final host ck value st) as Hf.
  pose proof (callCustomValidator_final host ck value st') as Hf'.
  unfold result, final in *.
  destruct (callCustomValidator host ck value st') as [r' s'],
           (callCustomValidator host ck value st) as [r s]; simpl in *; subst.
  destruct r as [[e |] | ex]; try reflexivity; apply IH.
Qed.

Lemma typedField_validate_sameNames host st st' this value :
  sameNames st st' ->
  builders st' !! this = builders st !! this ->
  criteriaObjects st' = criteriaObjects st ->
  result (typedField_validate host this value) st'
  = result (typedField_validate host this value) st.
Proof.
  intros Hn Hb Hc. unfold result.
  destruct (builders st !! this) as [b |] eqn:Eb.
  - destruct (criteriaObjects st !! criteria b) as [c |] eqn:Ec.
    + rewrite (typedField_validate_unfold host this value st b c Eb Ec).
      rewrite (typedField_validate_unfold host this value st' b c Hb); [| congruence].
      destruct (required c && requiredFires value).
      * unfold requiredFailure; unfold_monad.
        destruct (negb (bool_decide (_fieldName b ≠ NameNull))); [reflexivity |].
        apply runCustomCriteria_sameNames, Hn.
      * unfold_monad. apply runCustomCriteria_sameNames, Hn.
    + unfold typedField_validate, mbind, M_bind, readBuilder, readCriteria.
      rewrite Hb, Eb, Hc, Ec. reflexivity.
  - unfold typedField_validate, mbind, M_bind, readBuilder. rewrite Hb, Eb. reflexivity.
Qed.

Lemma dateField_onlyFuture_final st this msg :
  final (dateField_onlyFuture this msg) st
  = match builders st !! this with
    | Some b =>
        {| criteriaObjects := criteriaObjects st;
           builders :=
             <[this := {| _fieldName := _fieldName b;
                          criteria := criteria b;
                          customCriteria :=
                            (customCriteria b ++ [OnlyFutureValidator this msg])%list;
                          _messages := _messages b |}]> (builders st) |}
    | None => st
    end.
Proof.
  unfold dateField_onlyFuture; unfold_monad; simpl.
  destruct (builders st !! this); reflexivity.
Qed.

Lemma dateField_onlyFuture_sameNames st this msg :
  sameNames st (final (dateField_onlyFuture this msg) st).
Proof.
  intros r. rewrite dateField_onlyFuture_final.
  destruct (builders st !! this) as [b |] eqn:Hb; [| reflexivity]. simpl.
  destruct (decide (r = this)) as [-> | Hne].
  - rewrite list_lookup_insert_eq by (eapply lookup_lt_Some; eassumption).
    rewrite Hb. reflexivity.
  - rewrite list_lookup_insert_ne by congruence. reflexivity.
Qed.

(** Property X15.  [onlyFuture] called on one descriptor changes what no
    other descriptor's [validate] returns. *)
Theorem onlyFuture_leaves_other_descriptors host st this msg other value :
  other <> this ->
  result (typedField_validate host other value) (final (dateField_onlyFuture this msg) st)
  = result (typedField_validate host other value) st.
Proof.
  intros Hne. apply typedField_validate_sameNames.
  - apply dateField_onlyFuture_sameNames.
  - rewrite dateField_onlyFuture_final.
    destruct (builders st !! this); [| reflexivity]. simpl.
    apply list_lookup_insert_ne. congruence.
  - rewrite dateField_onlyFuture_final. destruct (builders st !! this); reflexivity.
Qed.

Lemma checkerBound_sameNames st st' ck :
  sameNames st st' -> checkerBound st ck -> checkerBound st' ck.
Proof.
  intros Hn. destruct ck as [r msg | f]; simpl; [| trivial].
  specialize (Hn r). intros [b Hb]. rewrite Hb in Hn. revert Hn.
  destruct (builders st' !! r); cbv [fmap option_fmap option_map]; [eauto | discriminate].
Qed.

Lemma omap_pointwise {A B} (f g : A -> option B) (l : list A) :
  (forall x, f x = g x) -> omap f l = omap g l.
Proof.
  intros H. induction l as [| x l IH]; [reflexivity |].
  cbn. rewrite H. destruct (g x); [f_equal |]; exact IH.
Qed.

(** Property X16.  After [onlyFuture(msg)] on a descriptor, its [validate]
    returns what it returned before, followed by the answer of the new
    criterion when that is not [null]; criteria registered earlier, other
    [onlyFuture] criteria included, are kept. *)
Theorem onlyFuture_appends_one_answer host st this msg b c value :
  builders st !! this = Some b ->
  criteriaObjects st !! criteria b = Some c ->
  _fieldName b <> NameNull ->
  Forall (checkerBound st) (customCriteria b) ->
  exists errors,
    result (typedField_validate host this value) st = Normal errors /\
    result (typedField_validate host this value) (final (dateField_onlyFuture this msg) st)
    = Normal (errors ++ match checkerAnswer host st value (OnlyFutureValidator this msg) with
                        | Some e => [e]
                        | None => []
                        end)%list.
Proof.
  intros Hb Hc Hn Hw.
  pose proof (dateField_onlyFuture_sameNames st this msg) as Hs.
  assert (Hans : forall ck,
             checkerAnswer host (final (dateField_onlyFuture this msg) st) value ck
             = checkerAnswer host st value ck).
  { intros ck. unfold checkerAnswer.
    rewrite (callCustomValidator_sameNames host st _ ck value Hs). reflexivity. }
  eexists. split.
  - unfold result. rewrite (typedField_validate_named host this value st b c); trivial.
  - revert Hs Hans. rewrite dateField_onlyFuture_final, Hb.
    set (b' := {| _fieldName := _fieldName b; criteria := criteria b;
                  customCriteria := (customCriteria b ++ [OnlyFutureValidator this msg])%list;
                  _messages := _messages b |}).
    set (st' := {| criteriaObjects := criteriaObjects st;
                   builders := <[this := b']> (builders st) |}).
    intros Hs Hans. unfold result.
    assert (Hb' : builders st' !! this = Some b').
    { simpl. apply list_lookup_insert_eq. eapply lookup_lt_Some; eassumption. }
    rewrite (typedField_validate_named host this value st' b' c Hb' Hc Hn).
    + simpl. rewrite omap_app, (omap_pointwise _ _ _ Hans). simpl. rewrite Hans.
      rewrite app_assoc. reflexivity.
    + simpl. apply Forall_app. split.
      * eapply Forall_impl; [exact Hw |]. intros ck. apply checkerBound_sameNames, Hs.
      * constructor; [| constructor]. exists b'. exact Hb'.
Qed.

(** Property X2.  The criterion of [onlyFuture] answers [null] for every
    falsy value ([undefined], [null], [false], [0], [NaN], the empty
    string) and for an invalid [Date], whatever the clock says. *)
Theorem onlyFuture_passes_falsy_and_invalid host st this msg value :
  truthy value = false \/ value = VDate None ->
  checkerAnswer host st value (OnlyFutureValidator this msg) = None.
Proof.
  intros [H | ->]; unfold checkerAnswer, result; simpl.
  - rewrite H. reflexivity.
  - reflexivity.
Qed.

(** ** A descriptor's [validate] *)

Lemma runCustomCriteria_no_assertion host cs value message : forall err st,
  result (runCustomCriteria host cs value err) st <> Throw (AssertionError message).
Proof.
  induction cs as [| ck cs IH]; intros err st; simpl; [discriminate |].
  unfold result, mbind, M_bind in *.
  destruct ck as [r msg | f]; simpl; unfold_monad.
  - destruct (negb (truthy value)); [apply IH |].
    destruct (JsDate.lt _ _); [| apply IH].
    destruct (builders st !! r); [apply IH | discriminate].
  - destruct (f value); apply IH.
Qed.

(** Property X17.  A descriptor whose custom criteria are all of
    [onlyFuture] ends its [validate] with an assertion error exactly when
    the field name is [null], the criteria are required and the value is
    one the required check takes for empty (a [String] object being of
    ASCII characters); a name that is [undefined] does not abort. *)
Theorem validate_aborts_exactly_when host st this value b c :
  builders st !! this = Some b ->
  criteriaObjects st !! criteria b = Some c ->
  Forall libraryCriterion (customCriteria b) ->
  asciiValue value ->
  (exists message,
     result (typedField_validate host this value) st = Throw (AssertionError message)) <->
  _fieldName b = NameNull /\ required c = true /\ requiredFires value = true.
Proof.
  intros Hb Hc _ _. split.
  - intros [message H]. unfold result in H.
    rewrite (typedField_validate_unfold host this value st b c Hb Hc) in H.
    destruct (required c) eqn:Hr, (requiredFires value) eqn:Hv; simpl in H;
      try (exfalso; revert H; unfold_monad;
           apply (runCustomCriteria_no_assertion host _ value message [] st)).
    unfold requiredFailure in H; unfold_monad.
    destruct (_fieldName b) as [| | name] eqn:Hn; [auto | |];
      exfalso; revert H; simpl;
      apply (runCustomCriteria_no_assertion host _ value message _ st).
  - intros (Hn & Hr & Hv). exists "Field name not specified". unfold result.
    rewrite (typedField_validate_unnamed host this value st b c); trivial.
Qed.

(** Property X1.  A required descriptor whose name is not [null] reports
    its required message, ahead of the answers of its custom criteria,
    for [undefined], a [String] object of white space only, the empty
    array and the empty set, and for no other value: no primitive string,
    number, boolean, [null], date or other object.  A [String] object is
    taken to hold ASCII characters. *)
Theorem required_check_fires_exactly_on host st this b c value :
  builders st !! this = Some b ->
  criteriaObjects st !! criteria b = Some c ->
  required c = true ->
  _fieldName b <> NameNull ->
  Forall (checkerBound st) (customCriteria b) ->
  asciiValue value ->
  let custom := omap (checkerAnswer host st value) (customCriteria b) in
  let message := getMessageForCriteria b (_fieldName b) "required" in
  (value = VUndefined \/
   (exists s, value = VStringObject s /\ JsString.all JsString.isWhiteSpace s = true) \/
   value = VArray [] \/
   value = VSet [] ->
   result (typedField_validate host this value) st = Normal (message :: custom)) /\
  (~ (value = VUndefined \/
      (exists s, value = VStringObject s /\ JsString.all JsString.isWhiteSpace s = true) \/
      value = VArray [] \/
      value = VSet []) ->
   result (typedField_validate host this value) st = Normal custom).
Proof.
  intros Hb Hc Hr Hn Hw _ custom message. unfold result.
  rewrite (typedField_validate_named host this value st b c Hb Hc Hn Hw).
  unfold requiredMessages. rewrite Hr. simpl. split; intros H.
  - apply requiredFires_iff in H. rewrite H. reflexivity.
  - destruct (requiredFires value) eqn:E; [| reflexivity].
    apply requiredFires_iff in E. contradiction.
Qed.

(** ** The schema validator *)











(** Property X21.  [validate] reads the data value under the keys of the
    schema only: two plain objects that agree under those keys, none of
    them a property of [Object.prototype], get the same result. *)
Theorem validate_ignores_unlisted_data host st schema data data' :
  topKeysOwn schema ->
  plainData data ->
  plainData data' ->
  agreeOn schema data data' ->
  validate host schema data st = validate host schema data' st.
Proof.
  intros _ _ _. unfold validate. generalize (@nil (string * VEErrorContainer)). revert st.
  induction schema as [| fieldName r rest IHrest | fieldName sub rest IHsub IHrest]
    using ValidationSchema_by_key; intros st acc Hagree; [reflexivity | |];
    cbn [validateFrom isFinalValidatorField]; unfold mbind, M_bind, liftCompletion;
    (rewrite <- (Hagree fieldName) by (simpl; rewrite String.eqb_refl; reflexivity));
    (assert (Hrest : agreeOn rest data data')
       by (intros key Hkey; apply Hagree; simpl; rewrite Hkey; apply orb_true_r)).
  - destruct (getProp data fieldName) as [value | e]; [| reflexivity].
    destruct (typedField_validate host r value st) as [[e | ex] st']; [| reflexivity].
    apply IHrest, Hrest.
  - destruct (getProp data fieldName) as [value | e]; [| reflexivity].
    destruct (hasKey "__isValidator" sub); [reflexivity |].
    destruct (validateFrom host sub value [] st) as [[res | ex] st']; [| reflexivity].
    apply IHrest, Hrest.
Qed.

(** ** Descriptors fresh from the builder *)

Lemma runCall_CallField st kind fieldName :
  runCall (CallField kind fieldName) st
  = (Normal (length (builders st)),
     {| criteriaObjects := criteriaObjects st;
        builders := (builders st ++
                     [{| _fieldName := NameString fieldName;
                         criteria := DEFAULT_CRITERIA;
                         customCriteria := [];
                         _messages := ∅ |}])%list |}).
Proof. destruct kind; reflexivity. Qed.

(** Property X20.  [field(name).date().onlyFuture(msg).validate(d)] for a
    [Date] [d] returns one message when the time of [d] is before the
    threshold [timeOfThisDay()], and none otherwise, whether or not the
    criteria are required; the message is [msg] when it is a non-empty
    string, else the readable name followed by [" can't be in the past"]. *)
Theorem fresh_onlyFuture_descriptor host st fieldName msg t :
  reachable st ->
  result (this ← runCall (CallField KindDate fieldName);
          this ← dateField_onlyFuture this msg;
          typedField_validate host this (VDate t)) st
  = Normal (if JsDate.lt t (timeOfThisDay host)
            then [if truthyMsg msg then default "" msg
                  else fieldReadable (NameString fieldName) +:+ " can't be in the past"]
            else []).
Proof.
  intros Hst. apply reachable_wellFormed in Hst.
  pose proof (wellFormed_runCall st (CallField KindDate fieldName) Hst) as Hst1.
  unfold final in Hst1. rewrite runCall_CallField in Hst1. simpl in Hst1.
  unfold result, mbind, M_bind at 1. rewrite runCall_CallField.
  set (b0 := {| _fieldName := NameString fieldName; criteria := DEFAULT_CRITERIA;
                customCriteria := []; _messages := ∅ |}) in *.
  set (st1 := {| criteriaObjects := criteriaObjects st;
                 builders := (builders st ++ [b0])%list |}) in *.
  set (this := length (builders st) : ref).
  assert (Hb : builders st1 !! this = Some b0).
  { simpl. apply list_lookup_middle. reflexivity. }
  destruct (wellFormed_lookup st1 this b0 Hst1 Hb) as (_ & _ & _ & [c Hc]).
  set (b1 := {| _fieldName := NameString fieldName; criteria := DEFAULT_CRITERIA;
                customCriteria := [OnlyFutureValidator this msg]; _messages := ∅ |}).
  set (st2 := {| criteriaObjects := criteriaObjects st;
                 builders := <[this := b1]> (builders st ++ [b0])%list |}).
  assert (Hcall : dateField_onlyFuture this msg st1 = (Normal this, st2)).
  { unfold dateField_onlyFuture, mbind, M_bind, readBuilder. rewrite Hb. reflexivity. }
  unfold M_bind. rewrite Hcall.
  assert (Hb1 : builders st2 !! this = Some b1).
  { simpl. apply list_lookup_insert_eq. rewrite length_app. simpl. unfold this. lia. }
  rewrite (typedField_validate_named host this (VDate t) st2 b1 c Hb1 Hc);
    [| discriminate | constructor; [exists b1; exact Hb1 | constructor]].
  assert (Hans : checkerAnswer host st2 (VDate t) (OnlyFutureValidator this msg)
                 = if JsDate.lt t (timeOfThisDay host)
                   then Some (if truthyMsg msg then default "" msg
                              else fieldReadable (NameString fieldName) +:+ " can't be in the past")
                   else None).
  { unfold checkerAnswer, result, callCustomValidator, mbind, mret, M_bind, M_ret, readBuilder.
    cbn [truthy negb newDateOf].
    destruct (JsDate.lt t (timeOfThisDay host)); [| reflexivity].
    rewrite Hb1. reflexivity. }
  replace (omap (checkerAnswer host st2 (VDate t)) (customCriteria b1))
    with (match checkerAnswer host st2 (VDate t) (OnlyFutureValidator this msg) with
          | Some e => [e]
          | None => []
          end) by reflexivity.
  rewrite Hans. unfold requiredMessages. cbn [requiredFires]. rewrite andb_false_r.
  destruct (JsDate.lt t (timeOfThisDay host)); reflexivity.
Qed.

(** Property X22.  While no [required()] has been called, a descriptor
    fresh from [field(name).<kind>()] accepts every value. *)
Theorem fresh_optional_descriptor host st kind fieldName value c :
  reachable st ->
  defaultCriteria st = Some c ->
  required c = false ->
  result (this ← runCall (CallField kind fieldName);
          typedField_validate host this value) st
  = Normal [].
Proof.
  intros Hst Hc Hr.
  unfold result, mbind, M_bind. rewrite runCall_CallField.
  set (b0 := {| _fieldName := NameString fieldName; criteria := DEFAULT_CRITERIA;
                customCriteria := []; _messages := ∅ |}).
  set (st1 := {| criteriaObjects := criteriaObjects st;
                 builders := (builders st ++ [b0])%list |}).
  assert (Hb : builders st1 !! length (builders st) = Some b0).
  { simpl. apply list_lookup_middle. reflexivity. }
  rewrite (typedField_validate_named host _ value st1 b0 c Hb Hc);
    [| discriminate | constructor].
  unfold requiredMessages. rewrite Hr. reflexivity.
Qed.

(** ** The threshold of [onlyFuture], in general *)

Lemma DaysInYear_cases y : JsDate.DaysInYear y = 365 \/ JsDate.DaysInYear y = 366.
Proof. unfold JsDate.DaysInYear, JsDate.DayFromYear. Z.div_mod_to_equations. lia. Qed.

Lemma DayWithinYear_bounds t :
  0 <= JsDate.DayWithinYear t < JsDate.DaysInYear (JsDate.YearFromTime t).
Proof.
  unfold JsDate.DayWithinYear, JsDate.DaysInYear, JsDate.YearFromTime.
  pose proof (YearFromDay_spec (JsDate.Day t)). lia.
Qed.

Lemma DateFromTime_bounds t : 1 <= JsDate.DateFromTime t <= 31.
Proof.
  pose proof (DayWithinYear_bounds t) as Hd.
  unfold JsDate.DateFromTime, JsDate.MonthFromTime, JsDate.InLeapYear.
  destruct (DaysInYear_cases (JsDate.YearFromTime t)) as [E | E]; rewrite E in *; simpl;
    repeat match goal with
           | |- context [if ?x <? ?y then _ else _] => destruct (Z.ltb_spec x y)
           end; simpl; lia.
Qed.

Lemma WeekDay_bounds t : 0 <= JsDate.WeekDay t <= 6.
Proof. unfold JsDate.WeekDay. pose proof (Z.mod_pos_bound (JsDate.Day t + 4) 7). lia. Qed.

(** Property X6.  In a time zone of constant offset the threshold
    [timeOfThisDay()] is the local midnight of today moved by as many days
    as the day of the week differs from the day of the month: between 31
    days back and 5 days ahead. *)
Theorem timeOfThisDay_within_a_month host tz :
  (forall t isUTC, LocalTZA host t isUTC = tz) ->
  Z.abs (Date_now host) <= 8640000000000000 ->
  ~ (0 <= getFullYear host (Date_now host) <= 99) ->
  let days := getDay host (Date_now host) - getDate host (Date_now host) in
  timeOfThisDay host = JsDate.TimeClip (startOfToday host + days * JsDate.msPerDay) /\
  -31 <= days <= 5.
Proof.
  intros Htz Hnow Hy days. split.
  - unfold timeOfThisDay, JsDate.TimeClip at 1.
    destruct (Z.leb_spec (Z.abs (Date_now host)) 8640000000000000); [| lia].
    unfold newDateYMD.
    destruct (Z.leb_spec 0 (getFullYear host (Date_now host)));
      destruct (Z.leb_spec (getFullYear host (Date_now host)) 99); simpl; try lia;
      unfold days, getFullYear, getMonth, getDay, getDate, startOfToday, UTC;
      rewrite MakeDay_of_time, !Htz; unfold JsDate.MakeDate; f_equal; lia.
  - unfold days, getDay, getDate.
    pose proof (WeekDay_bounds (LocalTime host (Date_now host))).
    pose proof (DateFromTime_bounds (LocalTime host (Date_now host))). lia.
Qed.

(** ** The properties above at concrete inputs *)

Lemma required_check_fires_exactly_on_witness :
  result (typedField_validate (utcHost 0) 0%nat (VArray [])) store8
  = Normal ("Tags is required" :: ["first"; "last"]).
Proof.
  assert (Hbound : Forall (checkerBound store8) (customCriteria builder8)).
  { repeat constructor. simpl. eauto. }
  destruct (required_check_fires_exactly_on (utcHost 0) store8 0%nat builder8
              {| required := true; type := FieldType_String |} (VArray [])
              eq_refl eq_refl eq_refl ltac:(discriminate) Hbound I) as [H _].
  apply H. right. right. left. reflexivity.
Defined.

Lemma onlyFuture_passes_falsy_and_invalid_witness :
  checkerAnswer (utcHost noon_2026_11_07) store9 (VNumber 0%float)
    (OnlyFutureValidator 0%nat None) = None.
Proof.
  apply (onlyFuture_passes_falsy_and_invalid (utcHost noon_2026_11_07) store9 0%nat None
           (VNumber 0%float)).
  left. reflexivity.
Defined.

Lemma timeOfThisDay_within_a_month_witness :
  let host := utcHost noon_2026_11_04 in
  let days := getDay host (Date_now host) - getDate host (Date_now host) in
  timeOfThisDay host = JsDate.TimeClip (startOfToday host + days * JsDate.msPerDay) /\
  -31 <= days <= 5.
Proof.
  apply (timeOfThisDay_within_a_month (utcHost noon_2026_11_04) 0).
  - intros t isUTC; reflexivity.
  - vm_compute; discriminate.
  - vm_compute. intros [_ H]. apply H. reflexivity.
Defined.

Lemma required_frame_witness :
  let st' := final (typedField_required 0%nat (Some "Needed")) storeAB in
  length (builders st') = length (builders storeAB) /\
  exists b',
    builders st' !! 1%nat = Some b' /\
    _fieldName b' = NameString "b" /\
    criteria b' = DEFAULT_CRITERIA /\
    customCriteria b' = [] /\
    (1%nat <> 0%nat -> _messages b' = ∅).
Proof.
  apply (required_frame storeAB 0%nat (Some "Needed") 1%nat
           {| _fieldName := NameString "b"; criteria := DEFAULT_CRITERIA;
              customCriteria := []; _messages := ∅ |}).
  reflexivity.
Defined.

Lemma required_is_permanent_witness :
  exists c',
    criteriaOf (runCalls [CallField KindDate "later"] store6) 1%nat = Some c' /\
    required c' = true.
Proof.
  apply (required_is_permanent store6 [CallField KindDate "later"] 0%nat
           {| required := true; type := FieldType_String |}).
  - exists [CallField KindString "first_name";
            CallRequired 0%nat (Some "Please fill this in")]. reflexivity.
  - reflexivity.
  - reflexivity.
  - vm_compute. eauto.
Defined.

Lemma criteria_type_is_always_String_witness :
  type {| required := false; type := FieldType_String |} = FieldType_String.
Proof.
  apply (criteria_type_is_always_String storeAB 1%nat
           {| required := false; type := FieldType_String |}).
  - exists [CallField KindString "a"; CallField KindDate "b"]. reflexivity.
  - reflexivity.
Defined.

Lemma fresh_required_descriptor_witness :
  result (this ← runCall (CallField KindFile "cover_letter");
          this ← typedField_required this None;
          typedField_validate (utcHost 0) this VUndefined) storeAB
  = Normal ["Cover letter is required"].
Proof.
  apply (fresh_required_descriptor (utcHost 0) storeAB KindFile "cover_letter" None).
  exists [CallField KindString "a"; CallField KindDate "b"]. reflexivity.
Defined.

Lemma onlyFuture_leaves_other_descriptors_witness :
  result (typedField_validate (utcHost 0) 0%nat VUndefined)
    (final (dateField_onlyFuture 1%nat None) storeAB)
  = result (typedField_validate (utcHost 0) 0%nat VUndefined) storeAB.
Proof.
  apply (onlyFuture_leaves_other_descriptors (utcHost 0) storeAB 1%nat None 0%nat VUndefined).
  discriminate.
Defined.

Lemma onlyFuture_appends_one_answer_witness :
  let host := utcHost noon_2026_11_07 in
  let value := VDate (Some noon_2026_11_05) in
  exists errors,
    result (typedField_validate host 0%nat value) store9 = Normal errors /\
    result (typedField_validate host 0%nat value)
      (final (dateField_onlyFuture 0%nat (Some "Too late")) store9)
    = Normal (errors ++ match checkerAnswer host store9 value
                                (OnlyFutureValidator 0%nat (Some "Too late")) with
                        | Some e => [e]
                        | None => []
                        end)%list.
Proof.
  apply (onlyFuture_appends_one_answer (utcHost noon_2026_11_07) store9 0%nat
           (Some "Too late")
           {| _fieldName := NameString "due"; criteria := DEFAULT_CRITERIA;
              customCriteria := [OnlyFutureValidator 0%nat None]; _messages := ∅ |}
           {| required := false; type := FieldType_String |}
           (VDate (Some noon_2026_11_05))).
  - reflexivity.
  - reflexivity.
  - discriminate.
  - repeat constructor. simpl. eauto.
Defined.

Lemma validate_aborts_exactly_when_witness :
  (exists message,
     result (typedField_validate (utcHost 0) 0%nat VUndefined) store10
     = Throw (AssertionError message)) <->
  _fieldName builder10 = NameNull /\ true = true /\ requiredFires VUndefined = true.
Proof.
  apply (validate_aborts_exactly_when (utcHost 0) store10 0%nat VUndefined builder10
           {| required := true; type := FieldType_String |});
    first [reflexivity | constructor].
Defined.



Lemma fresh_onlyFuture_descriptor_witness :
  result (this ← runCall (CallField KindDate "start_date");
          this ← dateField_onlyFuture this None;
          typedField_validate (utcHost noon_2026_11_07) this
            (VDate (Some noon_2026_11_05))) storeAB
  = Normal ["Start date can't be in the past"].
Proof.
  apply (fresh_onlyFuture_descriptor (utcHost noon_2026_11_07) storeAB "start_date" None
           (Some noon_2026_11_05)).
  exists [CallField KindString "a"; CallField KindDate "b"]. reflexivity.
Defined.

Lemma validate_ignores_unlisted_data_witness :
  validate (utcHost 0) (nameAddressSchema 0%nat 1%nat) dataAnn storeNameCity
  = validate (utcHost 0) (nameAddressSchema 0%nat 1%nat)
      (VObject [("age", VNumber 41%float); ("address", VObject []);
                ("name", VString "Ann")]) storeNameCity.
Proof.
  apply (validate_ignores_unlisted_data (utcHost 0) storeNameCity
           (nameAddressSchema 0%nat 1%nat)); try exact I;
    intros key Hkey; simpl in Hkey; rewrite orb_false_r in Hkey;
    apply orb_true_iff in Hkey as [Hkey | Hkey]; apply String.eqb_eq in Hkey; subst key;
    reflexivity.
Defined.

Lemma fresh_optional_descriptor_witness :
  result (this ← runCall (CallField KindArray "tags");
          typedField_validate (utcHost 0) this (VArray [])) storeAB
  = Normal [].
Proof.
  apply (fresh_optional_descriptor (utcHost 0) storeAB KindArray "tags" (VArray [])
           {| required := false; type := FieldType_String |}).
  - exists [CallField KindString "a"; CallField KindDate "b"]. reflexivity.
  - reflexivity.
  - reflexivity.
Defined.

Lemma fieldReadable_shape_witness :
  String.length (fieldReadable (NameString "first_name")) = String.length "first_name" /\
  JsString.all (fun c => negb (isUnderscore c)) (fieldReadable (NameString "first_name"))
  = true /\
  JsString.all (fun c => negb (isUpperCase c))
    (tail (fieldReadable (NameString "first_name"))) = true.
Proof. apply (fieldReadable_shape "first_name"). reflexivity. Defined.

Lemma fieldReadable_idempotent_witness :
  fieldReadable (NameString (fieldReadable (NameString "DATE_of_Birth")))
  = fieldReadable (NameString "DATE_of_Birth").
Proof. apply (fieldReadable_idempotent "DATE_of_Birth"). reflexivity. Defined.
